(** * ubuntu-advantage-client: the command actions of [uaclient/cli.py]

    A shallow embedding of [action_attach], [action_detach],
    [action_status], [action_enable], [action_disable] and of the
    dispatch done by [main], together with the properties of the
    attachment protocol that the specification states about them.

    The actions are Python functions that print, log, read and write the
    cache of [UAConfig], call the contract and SSO clients and the
    entitlement classes, and return an exit code or raise.  They are
    embedded in a state-and-exception monad over a [State] that holds the
    cache, the text printed so far, the log and the list of calls made to
    the collaborators. *)

From Stdlib Require Import ZArith String Ascii List Bool Lia.
From stdpp Require Import base option list gmap strings.

Import ListNotations.
Local Open Scope string_scope.
Local Open Scope Z_scope.

(** ** Python values *)

(** The values that travel through the cache and the service responses:
    decoded JSON.  A dict keeps its keys in insertion order, which is the
    order [.keys()] iterates in. *)
#[local] Unset Elimination Schemes.
Inductive json : Type :=
| JNull
| JBool (b : bool)
| JNum (n : Z)
| JStr (s : string)
| JList (l : list json)
| JDict (d : list (string * json)).
#[local] Set Elimination Schemes.

(** Python truth value: [None], [False], [0], [''], [[]] and [{}] are
    false, everything else is true. *)
Definition truthy (v : json) : bool :=
  match v with
  | JNull => false
  | JBool b => b
  | JNum n => negb (n =? 0)
  | JStr s => negb (String.eqb s "")
  | JList l => match l with [] => false | _ => true end
  | JDict d => match d with [] => false | _ => true end
  end.

(** The exceptions the actions can meet.  [UrlError] and [SSOAuthError]
    are the two classes [action_attach] names in its [except] clauses;
    the others are raised by subscripting and by [datetime.strptime]. *)
Inductive exn : Type :=
| UrlError (url msg : string)
| SSOAuthError (msg : string)
| KeyError (key : string)
| IndexError
| TypeError
| AttributeError
| ValueError.

(** [str(e)] *)
Definition exn_str (e : exn) : string :=
  match e with
  | UrlError _ msg => msg
  | SSOAuthError msg => msg
  | KeyError k => "'" ++ k ++ "'"
  | IndexError => "list index out of range"
  | TypeError => "TypeError"
  | AttributeError => "AttributeError"
  | ValueError => "ValueError"
  end.

Inductive outcome (A : Type) : Type :=
| Ret (a : A)
| Raise (e : exn).
Arguments Ret {A} a.
Arguments Raise {A} e.

Fixpoint assoc_get (k : string) (d : list (string * json)) : option json :=
  match d with
  | [] => None
  | (k', v) :: d' => if String.eqb k k' then Some v else assoc_get k d'
  end.

(** [v[k]] for a string key. *)
Definition getitem (v : json) (k : string) : outcome json :=
  match v with
  | JDict d => match assoc_get k d with
               | Some x => Ret x
               | None => Raise (KeyError k)
               end
  | _ => Raise TypeError
  end.

(** [v[0]] *)
Definition getitem0 (v : json) : outcome json :=
  match v with
  | JList [] => Raise IndexError
  | JList (x :: _) => Ret x
  | JStr s => match s with
              | EmptyString => Raise IndexError
              | String c _ => Ret (JStr (String c EmptyString))
              end
  | JDict _ => Raise (KeyError "0")
  | _ => Raise TypeError
  end.

(** [v.keys()] *)
Definition dict_keys (v : json) : outcome (list string) :=
  match v with
  | JDict d => Ret (map fst d)
  | _ => Raise AttributeError
  end.

(** ** The state of one invocation *)

(** The calls an action makes to its collaborators, in program order. *)
Inductive event : Type :=
| EvRootMacaroon
| EvExtractCaveat (macaroon : json)
| EvPromptLogin (caveat_id : json)
| EvBindDischarge (discharge root : json)
| EvAccounts (token : json)
| EvAccountContracts (token : json)
| EvAddContractToken (token contract_id : json)
| EvMachineAttach (contract_token : json)
| EvResourceAccess (machine_token : json) (name : string)
| EvCanDisable (name : string) (silent answer : bool)
| EvDisable (name : string) (silent : bool)
| EvEnable (name : string)
| EvWriteCache (key : string) (value : json)
| EvDeleteCache (key : string)
| EvWriteFile (path content : string).

Record State : Type := mkState {
  cache : gmap string json;
  trace : list event;
  stdout : list string;
  errlog : list string
}.

Definition add_event (ev : event) (s : State) : State :=
  mkState (cache s) (trace s ++ [ev]) (stdout s) (errlog s).

Definition add_stdout (line : string) (s : State) : State :=
  mkState (cache s) (trace s) (stdout s ++ [line]) (errlog s).

Definition add_errlog (line : string) (s : State) : State :=
  mkState (cache s) (trace s) (stdout s) (errlog s ++ [line]).

Definition set_cache (c : gmap string json) (s : State) : State :=
  mkState c (trace s) (stdout s) (errlog s).

(** The state once the calls [evs] are made, when they change nothing
    else. *)
Definition with_calls (evs : list event) (s : State) : State :=
  mkState (cache s) (trace s ++ evs) (stdout s) (errlog s).

(** ** The monad of the actions: state and exceptions *)

Definition M (A : Type) : Type := State -> outcome A * State.

Definition ret {A} (a : A) : M A := fun s => (Ret a, s).

Definition raise {A} (e : exn) : M A := fun s => (Raise e, s).

Definition bind {A B} (m : M A) (k : A -> M B) : M B :=
  fun s => match m s with
           | (Ret a, s') => k a s'
           | (Raise e, s') => (Raise e, s')
           end.

Notation "x <- m ;; k" := (bind m (fun x => k))
  (at level 100, m at level 99, right associativity, only parsing).
Notation "m ;;; k" := (bind m (fun _ => k))
  (at level 100, right associativity, only parsing).

(** A pure computation that may raise. *)
Definition lift {A} (o : outcome A) : M A := fun s => (o, s).

(** [try: body  except <classes> as e: handler e]: [handler] answers
    [None] for an exception its clause does not name, which then
    propagates. *)
Definition try_except {A} (body : M A) (handler : exn -> option (M A)) : M A :=
  fun s => match body s with
           | (Ret a, s') => (Ret a, s')
           | (Raise e, s') => match handler e with
                              | Some h => h s'
                              | None => (Raise e, s')
                              end
           end.

(** [for x in xs: body x] *)
Fixpoint for_each {A} (xs : list A) (body : A -> M unit) : M unit :=
  match xs with
  | [] => ret tt
  | x :: xs' => body x ;;; for_each xs' body
  end.

(** [print(line)] *)
Definition print (line : string) : M unit := fun s => (Ret tt, add_stdout line s).

(** [logging.error(line)] *)
Definition logging_error (line : string) : M unit :=
  fun s => (Ret tt, add_errlog line s).

(** ** What lies outside [cli.py]

    The modules [config], [contract], [entitlements], [sso], [status] and
    [util] are taken as a parameter: their constants, and for every call
    the answer it gives.  An answer may depend on the whole state at the
    time of the call, the calls made so far included, so that a service or
    an entitlement can answer differently as the run goes on. *)
Record World : Type := mkWorld {
  (** [os.getuid()] *)
  uid : Z;
  (** Python's [str()] of a value that is not a string. *)
  py_repr : json -> string;
  (** [entitlements.ENTITLEMENT_CLASSES], each class by its [name]. *)
  ENTITLEMENT_CLASSES : list string;
  (** [ua_status.MESSAGE_NONROOT_USER], [ua_status.MESSAGE_UNATTACHED] *)
  MESSAGE_NONROOT_USER : string;
  MESSAGE_UNATTACHED : string;
  (** [ua_status.STATUS_COLOR.get(ua_status.STANDARD, ua_status.STANDARD)] *)
  STATUS_LEVEL : string;
  (** [config.MOTD_UPDATES_AVAILABLE_CACHE_FILE], [config.MOTD_CACHE_FILE] *)
  MOTD_UPDATES_AVAILABLE_CACHE_FILE : string;
  MOTD_CACHE_FILE : string;
  (** [config.get_version()] *)
  VERSION : string;
  (** [cfg.accounts] *)
  cfg_accounts : State -> outcome json;
  (** the answers of the contract service and of the SSO exchange *)
  root_macaroon_answer : State -> outcome json;
  extract_caveat_answer : json -> State -> outcome json;
  prompt_macaroon_answer : json -> State -> outcome json;
  bind_discharge_answer : json -> json -> State -> outcome json;
  accounts_answer : json -> State -> outcome json;
  account_contracts_answer : json -> State -> outcome json;
  add_contract_token_answer : json -> json -> State -> outcome json;
  machine_attach_answer : json -> State -> outcome json;
  resource_access_answer : json -> string -> State -> outcome json;
  (** the answers of the entitlements *)
  can_disable_answer : string -> bool -> State -> bool;
  disable_answer : string -> bool -> State -> bool;
  enable_answer : string -> State -> bool;
  (** [ua_status.format_entitlement_status(ent)] and
      [ua_status.get_motd_summary(cfg, esm_only)] *)
  format_entitlement_status : string -> State -> string;
  get_motd_summary : bool -> State -> string
}.

(** [args], the namespace built by the parsers of [attach_parser],
    [enable_parser], [disable_parser] and [status_parser]. *)
Record Args : Type := mkArgs {
  token : option string;
  email : option string;
  password : option string;
  otp : option string;
  update_motd : bool;
  name : string
}.

(** [str(v)], as [%s] and [str.format] apply it. *)
Definition py_str (W : World) (v : json) : string :=
  match v with
  | JStr s => s
  | _ => py_repr W v
  end.

Definition nl : string := String (ascii_of_nat 10) EmptyString.

(** ** [datetime.strptime] with the format of the contract expiry

    [datetime.strptime(text, '%Y-%m-%dT%H:%M:%S.%fZ')] turns the format
    into a regular expression, matched case-insensitively against the
    whole text: [\d\d\d\d] for [%Y], [1[0-2]|0[1-9]|[1-9]] for [%m],
    [3[0-1]|[1-2]\d|0[1-9]|[1-9]| [1-9]] for [%d], [2[0-3]|[0-1]\d|\d] for
    [%H], [[0-5]\d|\d] for [%M], [6[0-1]|[0-5]\d|\d] for [%S] and
    [[0-9]{1,6}] for [%f].  No field can hold the separator that follows
    it, so a match cuts the text at the first occurrence of each separator
    and every field has to be one of its alternatives.  Texts are byte
    strings here and the digits are the ASCII ones. *)
Record datetime : Type := mkDatetime {
  year : Z; month : Z; day : Z;
  hour : Z; minute : Z; second : Z; microsecond : Z
}.

Definition is_digit (c : ascii) : bool :=
  let n := Z.of_nat (nat_of_ascii c) in (48 <=? n) && (n <=? 57).

Definition digit_value (c : ascii) : Z := Z.of_nat (nat_of_ascii c) - 48.

(** [int(field)] of a run of digits *)
Definition int_of_digits (l : list ascii) : Z :=
  fold_left (fun acc c => 10 * acc + digit_value c) l 0.

Fixpoint split_at (sep : ascii -> bool) (l : list ascii)
  : option (list ascii * list ascii) :=
  match l with
  | [] => None
  | c :: l' =>
      if sep c then Some ([], l')
      else match split_at sep l' with
           | Some (f, r) => Some (c :: f, r)
           | None => None
           end
  end.

(** One or two digits with a value between [lo] and [hi]. *)
Definition short_field (lo hi : Z) (f : list ascii) : option Z :=
  let v := int_of_digits f in
  if forallb is_digit f
     && ((length f =? 1)%nat || (length f =? 2)%nat)
     && (lo <=? v) && (v <=? hi)
  then Some v else None.

Definition year_field (f : list ascii) : option Z :=
  if forallb is_digit f && (length f =? 4)%nat
  then Some (int_of_digits f) else None.

Definition day_field (f : list ascii) : option Z :=
  match f with
  | [sp; d] =>
      if Ascii.eqb sp " "%char
      then (if is_digit d && (1 <=? digit_value d) then Some (digit_value d) else None)
      else short_field 1 31 f
  | _ => short_field 1 31 f
  end.

(** [%f]: one to six digits, read as if padded with zeros on the right. *)
Definition fraction_field (f : list ascii) : option Z :=
  if forallb is_digit f && (1 <=? length f)%nat && (length f <=? 6)%nat
  then Some (int_of_digits f * 10 ^ Z.of_nat (6 - length f)) else None.

Definition is_leap (y : Z) : bool :=
  ((y mod 4 =? 0) && negb (y mod 100 =? 0)) || (y mod 400 =? 0).

Definition days_in_month (y m : Z) : Z :=
  if m =? 2 then (if is_leap y then 29 else 28)
  else if (m =? 4) || (m =? 6) || (m =? 9) || (m =? 11) then 30
  else 31.

Definition is_char (a b : ascii) : ascii -> bool :=
  fun c => Ascii.eqb c a || Ascii.eqb c b.

Definition parse_expiry (text : list ascii) : option datetime :=
  '(fy, r) ← split_at (is_char "-" "-") text;
  y ← year_field fy;
  '(fm, r) ← split_at (is_char "-" "-") r;
  m ← short_field 1 12 fm;
  '(fd, r) ← split_at (is_char "T" "t") r;
  d ← day_field fd;
  '(fH, r) ← split_at (is_char ":" ":") r;
  H ← short_field 0 23 fH;
  '(fM, r) ← split_at (is_char ":" ":") r;
  Mi ← short_field 0 59 fM;
  '(fS, r) ← split_at (is_char "." ".") r;
  S ← short_field 0 61 fS;
  '(ff, r) ← split_at (is_char "Z" "z") r;
  us ← fraction_field ff;
  match r with
  | [] =>
      (* the constructor of [datetime] checks the ranges *)
      if (1 <=? y) && (d <=? days_in_month y m) && (S <=? 59)
      then Some (mkDatetime y m d H Mi S us) else None
  | _ => None
  end.

Definition strptime (v : json) : outcome datetime :=
  match v with
  | JStr text =>
      match parse_expiry (list_ascii_of_string text) with
      | Some dt => Ret dt
      | None => Raise ValueError
      end
  | _ => Raise TypeError
  end.

Definition digit_char (n : Z) : ascii := ascii_of_nat (Z.to_nat (48 + n mod 10)).

Definition digits2 (n : Z) : string :=
  String (digit_char (n / 10)) (String (digit_char n) EmptyString).

Definition digits4 (n : Z) : string := digits2 (n / 100) ++ digits2 n.

(** [str(expiry.date())]: the ISO form [YYYY-MM-DD]. *)
Definition date_str (dt : datetime) : string :=
  digits4 (year dt) ++ "-" ++ digits2 (month dt) ++ "-" ++ digits2 (day dt).

(** ** The collaborators, as the actions call them *)

Section Actions.

Context (W : World).

(** [os.getuid()] *)
Definition os_getuid : M Z := ret (uid W).

(** Modelled from the spec: [UAConfig.write_cache] of [uaclient/config.py],
    which is not part of [cli.py]; the credential store is a keyed cache
    with create, read and delete, and [Write(key, blob)] replaces the blob
    held under [key]. *)
Definition write_cache (key : string) (value : json) : M unit :=
  fun s => (Ret tt, add_event (EvWriteCache key value)
                      (set_cache (<[key := value]> (cache s)) s)).

(** Modelled from the spec: [UAConfig.delete_cache] of
    [uaclient/config.py]; [Delete(key)] removes the entry of [key]. *)
Definition delete_cache (key : string) : M unit :=
  fun s => (Ret tt, add_event (EvDeleteCache key)
                      (set_cache (delete key (cache s)) s)).

(** Modelled from the spec: [UAConfig.machine_token] of
    [uaclient/config.py]; the machine token is the blob persisted under
    the key [machine-token], [None] when there is none. *)
Definition machine_token_of (s : State) : json :=
  default JNull (cache s !! "machine-token").

Definition machine_token : M json := fun s => (Ret (machine_token_of s), s).

(** Modelled from the spec: [UAConfig.is_attached] of
    [uaclient/config.py]; a machine is attached iff [machine-token] exists
    in the credential store. *)
Definition attached (s : State) : bool :=
  match cache s !! "machine-token" with
  | Some _ => true
  | None => false
  end.

Definition is_attached : M bool := fun s => (Ret (attached s), s).

(** [cfg.accounts] *)
Definition accounts : M json := fun s => (cfg_accounts W s, s).

(** A call to a collaborator: it is recorded, and the world answers.  The
    call itself leaves the cache alone; the one write the specification
    gives to a collaborator, that of the machine token, is made explicitly
    in [request_contract_machine_attach] below. *)
Definition call (ev : event) (answer : State -> outcome json) : M json :=
  fun s => (answer s, add_event ev s).

(** [UAContractClient.request_root_macaroon()] *)
Definition request_root_macaroon : M json :=
  call EvRootMacaroon (root_macaroon_answer W).

(** [sso.extract_macaroon_caveat_id(macaroon)] *)
Definition extract_macaroon_caveat_id (macaroon : json) : M json :=
  call (EvExtractCaveat macaroon) (extract_caveat_answer W macaroon).

(** [sso.prompt_request_macaroon(cfg, caveat_id)] *)
Definition prompt_request_macaroon (caveat_id : json) : M json :=
  call (EvPromptLogin caveat_id) (prompt_macaroon_answer W caveat_id).

(** [sso.bind_discharge_macarooon_to_root_macaroon(discharge, root)] *)
Definition bind_discharge_macarooon_to_root_macaroon (discharge root : json) : M json :=
  call (EvBindDischarge discharge root) (bind_discharge_answer W discharge root).

(** [UAContractClient.request_accounts(token)] *)
Definition request_accounts (tok : json) : M json :=
  call (EvAccounts tok) (accounts_answer W tok).

(** [UAContractClient.request_account_contracts(token)] *)
Definition request_account_contracts (tok : json) : M json :=
  call (EvAccountContracts tok) (account_contracts_answer W tok).

(** [UAContractClient.request_add_contract_token(token, contract_id)] *)
Definition request_add_contract_token (tok contract_id : json) : M json :=
  call (EvAddContractToken tok contract_id) (add_contract_token_answer W tok contract_id).

(** Modelled from the spec: [UAContractClient.request_contract_machine_attach]
    of [uaclient/contract.py]; the contract token is exchanged for the
    machine token, which is persisted under [machine-token].  [cli.py]
    reads [cfg.machine_token] right after this call and never writes that
    key itself. *)
Definition request_contract_machine_attach (contract_token : json) : M json :=
  machine_token <- call (EvMachineAttach contract_token)
                        (machine_attach_answer W contract_token) ;;
  write_cache "machine-token" machine_token ;;;
  ret machine_token.

(** [UAContractClient.request_resource_machine_access(machine_token, name)] *)
Definition request_resource_machine_access (mt : json) (ent : string) : M json :=
  call (EvResourceAccess mt ent) (resource_access_answer W mt ent).

(** [util.write_file(path, content)] *)
Definition write_file (path content : string) : M unit :=
  fun s => (Ret tt, add_event (EvWriteFile path content) s).

(** [entitlements.ENTITLEMENT_CLASS_BY_NAME[name]]: the classes of
    [ENTITLEMENT_CLASSES] by their name, [KeyError] for any other. *)
Definition entitlement_class_by_name (n : string) : M string :=
  if existsb (String.eqb n) (ENTITLEMENT_CLASSES W) then ret n
  else raise (KeyError n).

(** [ent.can_disable(silent)] *)
Definition ent_can_disable (ent : string) (silent : bool) : M bool :=
  fun s => let answer := can_disable_answer W ent silent s in
           (Ret answer, add_event (EvCanDisable ent silent answer) s).

(** Modelled from the spec: [disable] of the entitlement classes of
    [uaclient/entitlements], which are not part of [cli.py]; no
    entitlement mutation may proceed without administrative privilege,
    and its absence yields the fixed message and a failure. *)
Definition ent_disable (ent : string) (silent : bool) : M bool :=
  u <- os_getuid ;;
  if u =? 0
  then fun s => (Ret (disable_answer W ent silent s), add_event (EvDisable ent silent) s)
  else print (MESSAGE_NONROOT_USER W) ;;; ret false.

(** Modelled from the spec: [enable] of the entitlement classes of
    [uaclient/entitlements], under the same privilege rule. *)
Definition ent_enable (ent : string) : M bool :=
  u <- os_getuid ;;
  if u =? 0
  then fun s => (Ret (enable_answer W ent s), add_event (EvEnable ent) s)
  else print (MESSAGE_NONROOT_USER W) ;;; ret false.

(** ** The actions of [cli.py] *)

Definition STATUS_HEADER_TMPL (account subscription contract_expiry support_level : string)
  : string :=
  "Account: " ++ account ++ nl ++
  "Subscription: " ++ subscription ++ nl ++
  "Valid until: " ++ contract_expiry ++ nl ++
  "Technical support: " ++ support_level ++ nl.

(** [sep.join(lines)] *)
Fixpoint join (sep : string) (lines : list string) : string :=
  match lines with
  | [] => ""
  | [l] => l
  | l :: ls => l ++ sep ++ join sep ls
  end.

Definition action_disable (args : Args) : M (option Z) :=
  ent_cls <- entitlement_class_by_name (name args) ;;
  ok <- ent_disable ent_cls false ;;
  ret (Some (if ok then 0 else 1)).

Definition action_enable (args : Args) : M (option Z) :=
  ent_cls <- entitlement_class_by_name (name args) ;;
  ok <- ent_enable ent_cls ;;
  ret (Some (if ok then 0 else 1)).

(** The text [textwrap.dedent] leaves of the literal in [action_detach]. *)
Definition MESSAGE_DETACH_UNATTACHED : string :=
  "This machine is not attached to a UA Subscription, sign up here:" ++ nl ++
  "      https://ubuntu.com/advantage" ++ nl.

(** Lines 186-188, the body of the loop of [action_detach]. *)
Definition detach_entitlement (ent : string) : M unit :=
  can <- ent_can_disable ent true ;;
  if can then ent_disable ent true ;;; ret tt else ret tt.

Definition action_detach (args : Args) : M (option Z) :=
  att <- is_attached ;;
  if negb att then
    print MESSAGE_DETACH_UNATTACHED ;;;
    ret (Some 1)
  else
  u <- os_getuid ;;
  if negb (u =? 0) then
    print (MESSAGE_NONROOT_USER W) ;;;
    ret (Some 1)
  else
  for_each (ENTITLEMENT_CLASSES W) detach_entitlement ;;;
  delete_cache "machine-token" ;;;
  delete_cache "oauth" ;;;
  print "This machine is now detached" ;;;
  ret (Some 0).

(** Lines 290-296 of [action_status]: the two motd files. *)
Definition status_update_motd (update : bool) : M unit :=
  if update then
    esm_status <- (fun s => (Ret (get_motd_summary W true s), s)) ;;
    write_file (MOTD_UPDATES_AVAILABLE_CACHE_FILE W) esm_status ;;;
    ua_motd_status <- (fun s => (Ret (get_motd_summary W false s), s)) ;;
    write_file (MOTD_CACHE_FILE W) ua_motd_status ;;;
    print esm_status ;;;
    print ua_motd_status
  else ret tt.

(** [cfg] is always the configuration object that [main] built, so the
    [if not cfg] of the source never replaces it; [args] is [None] when
    [action_attach] calls. *)
Definition action_status (args : option Args) : M (option Z) :=
  let update := match args with Some a => update_motd a | None => false end in
  status_update_motd update ;;;
  att <- is_attached ;;
  if negb att then
    print (MESSAGE_UNATTACHED W) ;;;
    ret None
  else
  mt <- machine_token ;;
  mti <- lift (getitem mt "machineTokenInfo") ;;
  contractInfo <- lift (getitem mti "contractInfo") ;;
  effectiveTo <- lift (getitem contractInfo "effectiveTo") ;;
  expiry <- lift (strptime effectiveTo) ;;
  accts <- accounts ;;
  account <- lift (getitem0 accts) ;;
  account_name <- lift (getitem account "name") ;;
  subscription <- lift (getitem contractInfo "name") ;;
  lines <- (fun s => (Ret (map (fun ent => format_entitlement_status W ent s)
                               (ENTITLEMENT_CLASSES W)), s)) ;;
  print (join nl
           (STATUS_HEADER_TMPL (py_str W account_name) (py_str W subscription)
              (date_str expiry) (STATUS_LEVEL W)
            :: lines
            ++ [nl ++ "Enable entitlements with `ua enable <service>`" ++ nl])) ;;;
  ret None.

(** [args.token] as a value: [None] when the positional is left out. *)
Definition token_value (t : option string) : json :=
  match t with
  | Some tok => JStr tok
  | None => JNull
  end.

Definition MESSAGE_NO_USER_TOKEN : string :=
  "Could not attach machine. Unable to obtain authenticated user token".

(** [action_attach] in the order of its text: the two guards, the bound
    credential (lines 204-220), the exchange up to the machine token
    (lines 222-232), the access grants (lines 233-237) and the summary.
    An early [return code] inside a block is [inl code]; [inr v] carries on
    with the value the block computed. *)

(** Lines 204-216: the credential comes from the SSO exchange when
    [args.token] is false, and is [args.token] otherwise. *)
Definition obtain_sso_token (args : Args) : M (Z + json) :=
  if negb (truthy (token_value (token args))) then
    exchange <-
      try_except
        (root_macaroon <- request_root_macaroon ;;
         macaroon <- lift (getitem root_macaroon "macaroon") ;;
         caveat_id <- extract_macaroon_caveat_id macaroon ;;
         user_token <- prompt_request_macaroon caveat_id ;;
         ret (inr (root_macaroon, user_token)))
        (fun e =>
           match e with
           | UrlError url _ =>
               Some (logging_error
                       ("Could not reach url '" ++ url ++ "' to authenticate.") ;;;
                     ret (inl 1))
           | _ => None
           end) ;;
    match exchange with
    | inl code => ret (inl code)
    | inr (root_macaroon, user_token) =>
        discharge <- lift (getitem user_token "discharge_macaroon") ;;
        macaroon <- lift (getitem root_macaroon "macaroon") ;;
        sso_token <- bind_discharge_macarooon_to_root_macaroon discharge macaroon ;;
        ret (inr sso_token)
    end
  else ret (inr (token_value (token args))).

(** Lines 222-232: accounts, contracts, contract token, machine token. *)
Definition issue_machine_token (sso_token : json) : M (Z + json) :=
  try_except
    (request_accounts sso_token ;;;
     contracts <- request_account_contracts sso_token ;;
     contract_list <- lift (getitem contracts "contracts") ;;
     contract <- lift (getitem0 contract_list) ;;
     contract_info <- lift (getitem contract "contractInfo") ;;
     contract_id <- lift (getitem contract_info "id") ;;
     contract_token <- request_add_contract_token sso_token contract_id ;;
     contract_token_value <- lift (getitem contract_token "contractToken") ;;
     token_response <- request_contract_machine_attach contract_token_value ;;
     ret (inr token_response))
    (fun e =>
       match e with
       | SSOAuthError _ | UrlError _ _ =>
           Some (logging_error (exn_str e) ;;; ret (inl 1))
       | _ => None
       end).

(** Lines 234-237: one access request for each name, in the order of the
    keys; [cfg.machine_token] is read again for every request. *)
Definition grant_resource_access (entitlement_names : list string) : M unit :=
  for_each entitlement_names (fun entitlement_name =>
    mt <- machine_token ;;
    request_resource_machine_access mt entitlement_name ;;;
    ret tt).

(** Lines 233-241 *)
Definition attach_entitlements (token_response : json) : M (option Z) :=
  mti <- lift (getitem token_response "machineTokenInfo") ;;
  contractInfo <- lift (getitem mti "contractInfo") ;;
  resources <- lift (getitem contractInfo "resourceEntitlements") ;;
  entitlement_names <- lift (dict_keys resources) ;;
  grant_resource_access entitlement_names ;;;
  mti' <- lift (getitem token_response "machineTokenInfo") ;;
  contractInfo' <- lift (getitem mti' "contractInfo") ;;
  contract_name <- lift (getitem contractInfo' "name") ;;
  print ("This machine is now attached to '" ++ py_str W contract_name ++ "'." ++ nl) ;;;
  action_status None ;;;
  ret (Some 0).

(** Lines 217-241, once the credential is there. *)
Definition attach_with_token (sso_token : json) : M (option Z) :=
  if negb (truthy sso_token) then
    print MESSAGE_NO_USER_TOKEN ;;;
    ret (Some 1)
  else
  write_cache "bound-macaroon" sso_token ;;;
  issued <- issue_machine_token sso_token ;;
  match issued with
  | inl code => ret (Some code)
  | inr token_response => attach_entitlements token_response
  end.

Definition action_attach (args : Args) : M (option Z) :=
  att <- is_attached ;;
  if att then
    accts <- accounts ;;
    account <- lift (getitem0 accts) ;;
    account_name <- lift (getitem account "name") ;;
    print ("This machine is already attached to '" ++ py_str W account_name ++ "'.") ;;;
    ret (Some 0)
  else
  u <- os_getuid ;;
  if negb (u =? 0) then
    print (MESSAGE_NONROOT_USER W) ;;;
    ret (Some 1)
  else
  obtained <- obtain_sso_token args ;;
  match obtained with
  | inl code => ret (Some code)
  | inr sso_token => attach_with_token sso_token
  end.

Definition print_version : M (option Z) :=
  print (VERSION W) ;;;
  ret None.

(** The subcommands of [get_parser], each with the action it sets. *)
Inductive subcommand : Type :=
| CmdStatus | CmdAttach | CmdDetach | CmdEnable | CmdDisable | CmdVersion.

(** [main]: [args.action(args, cfg)] for the parsed subcommand. *)
Definition main (cmd : subcommand) (args : Args) : M (option Z) :=
  match cmd with
  | CmdStatus => action_status (Some args)
  | CmdAttach => action_attach args
  | CmdDetach => action_detach args
  | CmdEnable => action_enable args
  | CmdDisable => action_disable args
  | CmdVersion => print_version
  end.

End Actions.

(** [sys.exit(main())]: [None] exits with 0, an integer with itself, and an
    exception that nobody caught ends the process with 1. *)
Definition exit_status (r : outcome (option Z)) : Z :=
  match r with
  | Ret None => 0
  | Ret (Some code) => code
  | Raise _ => 1
  end.

(** ** Reading the list of calls *)

(** The requests that go over the network: to the contract service and to
    the SSO login. *)
Definition is_network_call (ev : event) : bool :=
  match ev with
  | EvRootMacaroon | EvPromptLogin _ | EvAccounts _ | EvAccountContracts _
  | EvAddContractToken _ _ | EvMachineAttach _ | EvResourceAccess _ _ => true
  | _ => false
  end.

(** The steps of the identity exchange: root macaroon, caveat, login,
    binding. *)
Definition is_identity_exchange (ev : event) : bool :=
  match ev with
  | EvRootMacaroon | EvExtractCaveat _ | EvPromptLogin _ | EvBindDischarge _ _ => true
  | _ => false
  end.

Definition is_cache_mutation (ev : event) : bool :=
  match ev with
  | EvWriteCache _ _ | EvDeleteCache _ => true
  | _ => false
  end.

Definition is_entitlement_call (ev : event) : bool :=
  match ev with
  | EvCanDisable _ _ _ | EvDisable _ _ | EvEnable _ => true
  | _ => false
  end.

(** The calls of the teardown loop of [action_detach] over the registry
    [names]: for each entitlement its silent [can_disable], followed by its
    silent [disable] exactly when the answer was yes. *)
Inductive teardown_calls : list string -> list event -> Prop :=
| teardown_done : teardown_calls [] []
| teardown_skip ent ents evs :
    teardown_calls ents evs ->
    teardown_calls (ent :: ents) (EvCanDisable ent true false :: evs)
| teardown_disable ent ents evs :
    teardown_calls ents evs ->
    teardown_calls (ent :: ents)
      (EvCanDisable ent true true :: EvDisable ent true :: evs).

(** The requests of the exchange that follows the bound credential, in the
    order [action_attach] makes them. *)
Definition exchange_calls (sso_token contract_id contract_token machine_token : json)
  : list event :=
  [ EvAccounts sso_token;
    EvAccountContracts sso_token;
    EvAddContractToken sso_token contract_id;
    EvMachineAttach contract_token;
    EvWriteCache "machine-token" machine_token ].

(** The steps of the identity exchange, in order. *)
Definition identity_calls (macaroon caveat_id discharge : json) : list event :=
  [ EvRootMacaroon;
    EvExtractCaveat macaroon;
    EvPromptLogin caveat_id;
    EvBindDischarge discharge macaroon ].

(** ** A sample machine, service and registry *)

Definition sample_contract_info : json :=
  JDict [ ("name", JStr "blackberry/desktop");
          ("id", JStr "cid-1");
          ("effectiveTo", JStr "2030-01-15T00:00:00.000000Z");
          ("resourceEntitlements",
            JDict [ ("esm", JDict [("entitled", JBool true)]);
                    ("fips", JDict [("entitled", JBool true)]);
                    ("livepatch", JDict [("entitled", JBool true)]) ]) ].

Definition sample_machine_token : json :=
  JDict [ ("machineToken", JStr "mtok-1");
          ("machineTokenInfo", JDict [("contractInfo", sample_contract_info)]) ].

(** A world whose caller has uid [u], whose SSO binding yields [bound],
    whose accounts request answers iff [accounts_up], and whose access
    request fails for the names in [failing]. *)
Definition sample_world (u : Z) (bound : json) (accounts_up : bool)
    (failing : list string) : World :=
  {| uid := u;
     py_repr := fun _ => "<value>";
     ENTITLEMENT_CLASSES := ["esm"; "fips"; "fips-updates"; "livepatch"];
     MESSAGE_NONROOT_USER := "This command must be run as root (try using sudo)";
     MESSAGE_UNATTACHED := "This machine is not attached to a UA subscription.";
     STATUS_LEVEL := "standard";
     MOTD_UPDATES_AVAILABLE_CACHE_FILE := "/var/cache/ubuntu-advantage-tools/motd-updates-available";
     MOTD_CACHE_FILE := "/var/cache/ubuntu-advantage-tools/motd";
     VERSION := "19.1";
     cfg_accounts := fun _ => Ret (JList [JDict [("name", JStr "blackberry")]]);
     root_macaroon_answer := fun _ => Ret (JDict [("macaroon", JStr "root-mac")]);
     extract_caveat_answer := fun _ _ => Ret (JStr "caveat-1");
     prompt_macaroon_answer := fun _ _ =>
       Ret (JDict [("discharge_macaroon", JStr "discharge-mac")]);
     bind_discharge_answer := fun _ _ _ => Ret bound;
     accounts_answer := fun _ _ =>
       if accounts_up then Ret (JDict [("accounts", JList [])])
       else Raise (UrlError "https://contracts.canonical.com/accounts" "unreachable");
     account_contracts_answer := fun _ _ =>
       Ret (JDict [("contracts", JList [JDict [("contractInfo", sample_contract_info)]])]);
     add_contract_token_answer := fun _ _ _ =>
       Ret (JDict [("contractToken", JStr "ctok-1")]);
     machine_attach_answer := fun _ _ => Ret sample_machine_token;
     resource_access_answer := fun _ ent _ =>
       if existsb (String.eqb ent) failing
       then Raise (UrlError ent "access refused")
       else Ret (JDict [("entitlement", JStr ent)]);
     can_disable_answer := fun ent _ _ => String.eqb ent "esm";
     disable_answer := fun _ _ _ => true;
     enable_answer := fun _ _ => true;
     format_entitlement_status := fun ent _ => ent ++ ": enabled";
     get_motd_summary := fun _ _ => "motd" |}.

Definition fresh_state : State := mkState ∅ [] [] [].

Definition attached_state : State :=
  mkState (<["machine-token" := sample_machine_token]>
             (<["bound-macaroon" := JStr "tok123"]> ∅)) [] [] [].

Definition no_args : Args := mkArgs None None None None false "".

Definition token_args (t : string) : Args := mkArgs (Some t) None None None false "".

Definition name_args (n : string) : Args := mkArgs None None None None false n.

(** Root, with every service answering. *)
Definition world_root : World := sample_world 0 (JStr "bound-mac") true [].

(** A caller who is not root. *)
Definition world_user : World := sample_world 1000 (JStr "bound-mac") true [].

(** Root, with a contract service that refuses the access request for
    [fips], the second of the three entitlements of the contract. *)
Definition world_fips_refused : World := sample_world 0 (JStr "bound-mac") true ["fips"].

(** Root, with a contract service whose accounts request cannot be
    reached. *)
Definition world_accounts_down : World := sample_world 0 (JStr "bound-mac") false [].

(** Root, with an SSO binding that yields no credential. *)
Definition world_no_credential : World := sample_world 0 JNull true [].

(** The state once the token "tok123" is written under [bound-macaroon]. *)
Definition state_bound : State :=
  snd (write_cache "bound-macaroon" (JStr "tok123") fresh_state).

(** The state [attach "tok123"] leaves on a fresh machine. *)
Definition state_after_attach : State :=
  snd (action_attach world_root (token_args "tok123") fresh_state).

(** The state when the machine token is issued, with [fips] refused. *)
Definition state_issued : State :=
  snd (issue_machine_token world_fips_refused (JStr "tok123") state_bound).

(** ... and after the access request for [esm]. *)
Definition state_esm_granted : State :=
  snd (grant_resource_access world_fips_refused ["esm"] state_issued).

(** [args] with another positional [token]. *)
Definition with_token (t : option string) (args : Args) : Args :=
  mkArgs t (email args) (password args) (otp args) (update_motd args) (name args).

(** ** Logging: [setup_logging] and the whole of [main]

    The root logger is its list of handlers and its level.  Of a handler
    [setup_logging] looks at the name of its stream, when it has a stream
    with a name, and sets its level and its formatter. *)
Record Handler : Type := mkHandler {
  stream_name : option string;
  handler_level : Z;
  handler_format : option string
}.

Record Logging : Type := mkLogging {
  handlers : list Handler;
  root_level : Z
}.

(** [logging.DEBUG] and [logging.ERROR] *)
Definition DEBUG : Z := 10.
Definition ERROR : Z := 40.

Definition DEFAULT_LOG_FORMAT : string :=
  "%(asctime)s - %(filename)s:(%(lineno)d) [%(levelname)s]: %(message)s".

(** [fmt] of [setup_logging] *)
Definition CONSOLE_FORMAT : string := "[%(levelname)s]: %(message)s".

(** What [main] hands over as [log_file]: the path of the configuration,
    or, with [--debug], the number [logging.DEBUG]. *)
Inductive log_target : Type :=
| LogPath (path : string)
| LogNumber (n : Z).

(** The host of the process: the log settings of [config], and for a path
    the absolute path [logging.FileHandler] opens and the error of that
    opening, if any. *)
Record Host : Type := mkHost {
  CONFIG_DEFAULTS_log_file : string;
  cfg_log_level : Z;
  cfg_log_file : string;
  abspath : string -> string;
  open_error : string -> option exn
}.

(** [logging.FileHandler(log_file)]: the file is opened at once, and the
    stream of the handler bears its absolute path as name; a file name that
    is a number is refused with [TypeError]. *)
Definition FileHandler (H : Host) (log_file : log_target) : outcome Handler :=
  match log_file with
  | LogNumber _ => Raise TypeError
  | LogPath path =>
      match open_error H path with
      | Some e => Raise e
      | None => Ret (mkHandler (Some (abspath H path)) 0 None)
      end
  end.

(** [logging.StreamHandler(sys.stderr)] *)
Definition StreamHandler_stderr : Handler := mkHandler (Some "<stderr>") 0 None.

Definition setLevel (level : Z) (h : Handler) : Handler :=
  mkHandler (stream_name h) level (handler_format h).

Definition setFormatter (fmt : string) (h : Handler) : Handler :=
  mkHandler (stream_name h) (handler_level h) (Some fmt).

(** [hasattr(handler, 'stream') and hasattr(handler.stream, 'name')] and
    [handler.stream.name == '<stderr>'] *)
Definition is_stderr (h : Handler) : bool :=
  match stream_name h with
  | Some n => String.eqb n "<stderr>"
  | None => false
  end.

(** The loop of [setup_logging] over [root.handlers]: the first handler on
    [<stderr>] gets the level and the console formatter, and the loop
    stops there; the boolean is [stderr_found]. *)
Fixpoint configure_stderr (level : Z) (hs : list Handler) : list Handler * bool :=
  match hs with
  | [] => ([], false)
  | h :: hs' =>
      if is_stderr h
      then (setFormatter CONSOLE_FORMAT (setLevel level h) :: hs', true)
      else let (r, found) := configure_stderr level hs' in (h :: r, found)
  end.

Definition setup_logging (H : Host) (level : option Z) (log_file : option log_target)
    (lg : Logging) : outcome Logging :=
  let level := default ERROR level in
  let log_file := default (LogPath (CONFIG_DEFAULTS_log_file H)) log_file in
  match FileHandler H log_file with
  | Raise e => Raise e
  | Ret filehandler =>
      let filehandler := setFormatter DEFAULT_LOG_FORMAT (setLevel DEBUG filehandler) in
      let added := (handlers lg ++ [filehandler])%list in
      let (configured, stderr_found) := configure_stderr level added in
      let final :=
        if stderr_found then configured
        else (configured
              ++ [setLevel level (setFormatter CONSOLE_FORMAT StreamHandler_stderr)])%list in
      Ret (mkLogging final level)
  end.

(** The whole of [main] once the arguments are parsed: the logging is set
    up, with the level and the file of the configuration or, with
    [--debug], with [logging.DEBUG] for both, and then the action of the
    subcommand runs, as [main] above has it. *)
Definition main_entry (H : Host) (W : World) (debug : bool) (cmd : subcommand)
    (args : Args) (lg : Logging) (s : State)
  : outcome (option Z) * State * Logging :=
  let log_level := if debug then DEBUG else cfg_log_level H in
  let log_file := if debug then LogNumber DEBUG else LogPath (cfg_log_file H) in
  match setup_logging H (Some log_level) (Some log_file) lg with
  | Raise e => (Raise e, s, lg)
  | Ret lg' => (main W cmd args s, lg')
  end.

(** A host whose log file can be opened, and one where it cannot. *)
Definition sample_host : Host :=
  {| CONFIG_DEFAULTS_log_file := "/var/log/ubuntu-advantage.log";
     cfg_log_level := 20;
     cfg_log_file := "/var/log/ubuntu-advantage.log";
     abspath := fun p => p;
     open_error := fun _ => None |}.

Definition fresh_logging : Logging := mkLogging [] 30.

(** Root, with a contract service that lists no contract. *)
Definition world_no_contract : World :=
  {| uid := 0;
     py_repr := py_repr world_root;
     ENTITLEMENT_CLASSES := ENTITLEMENT_CLASSES world_root;
     MESSAGE_NONROOT_USER := MESSAGE_NONROOT_USER world_root;
     MESSAGE_UNATTACHED := MESSAGE_UNATTACHED world_root;
     STATUS_LEVEL := STATUS_LEVEL world_root;
     MOTD_UPDATES_AVAILABLE_CACHE_FILE := MOTD_UPDATES_AVAILABLE_CACHE_FILE world_root;
     MOTD_CACHE_FILE := MOTD_CACHE_FILE world_root;
     VERSION := VERSION world_root;
     cfg_accounts := cfg_accounts world_root;
     root_macaroon_answer := root_macaroon_answer world_root;
     extract_caveat_answer := extract_caveat_answer world_root;
     prompt_macaroon_answer := prompt_macaroon_answer world_root;
     bind_discharge_answer := bind_discharge_answer world_root;
     accounts_answer := accounts_answer world_root;
     account_contracts_answer := fun _ _ => Ret (JDict [("contracts", JList [])]);
     add_contract_token_answer := add_contract_token_answer world_root;
     machine_attach_answer := machine_attach_answer world_root;
     resource_access_answer := resource_access_answer world_root;
     can_disable_answer := can_disable_answer world_root;
     disable_answer := disable_answer world_root;
     enable_answer := enable_answer world_root;
     format_entitlement_status := format_entitlement_status world_root;
     get_motd_summary := get_motd_summary world_root |}.

(** A machine attached with a contract whose expiry has no fraction of a
    second. *)
Definition state_no_fraction : State :=
  mkState
    (<["machine-token" :=
         JDict [("machineTokenInfo",
                 JDict [("contractInfo",
                         JDict [ ("name", JStr "blackberry/desktop");
                                 ("effectiveTo", JStr "2030-01-15T00:00:00Z") ])])]]> ∅)
    [] [] [].

(** A root logger that already writes to [<stderr>]. *)
Definition console_logging : Logging :=
  mkLogging [mkHandler None 0 None; mkHandler (Some "<stderr>") 30 None] 30.

(** [cfg.accounts[0]['name']], as [action_attach] reads it for the message
    of a machine that is already attached. *)
Definition account_name_of (W : World) (s : State) : outcome json :=
  match cfg_accounts W s with
  | Ret accts =>
      match getitem0 accts with
      | Ret account => getitem account "name"
      | Raise e => Raise e
      end
  | Raise e => Raise e
  end.

(** A caller who is not root, on a machine whose configuration lists no
    account. *)
Definition world_no_account : World :=
  {| uid := 1000;
     py_repr := py_repr world_root;
     ENTITLEMENT_CLASSES := ENTITLEMENT_CLASSES world_root;
     MESSAGE_NONROOT_USER := MESSAGE_NONROOT_USER world_root;
     MESSAGE_UNATTACHED := MESSAGE_UNATTACHED world_root;
     STATUS_LEVEL := STATUS_LEVEL world_root;
     MOTD_UPDATES_AVAILABLE_CACHE_FILE := MOTD_UPDATES_AVAILABLE_CACHE_FILE world_root;
     MOTD_CACHE_FILE := MOTD_CACHE_FILE world_root;
     VERSION := VERSION world_root;
     cfg_accounts := fun _ => Ret (JList []);
     root_macaroon_answer := root_macaroon_answer world_root;
     extract_caveat_answer := extract_caveat_answer world_root;
     prompt_macaroon_answer := prompt_macaroon_answer world_root;
     bind_discharge_answer := bind_discharge_answer world_root;
     accounts_answer := accounts_answer world_root;
     account_contracts_answer := account_contracts_answer world_root;
     add_contract_token_answer := add_contract_token_answer world_root;
     machine_attach_answer := machine_attach_answer world_root;
     resource_access_answer := resource_access_answer world_root;
     can_disable_answer := can_disable_answer world_root;
     disable_answer := disable_answer world_root;
     enable_answer := enable_answer world_root;
     format_entitlement_status := format_entitlement_status world_root;
     get_motd_summary := get_motd_summary world_root |}.

(** Root, with an SSO login that cannot be reached. *)
Definition world_login_unreachable : World :=
  {| uid := 0;
     py_repr := py_repr world_root;
     ENTITLEMENT_CLASSES := ENTITLEMENT_CLASSES world_root;
     MESSAGE_NONROOT_USER := MESSAGE_NONROOT_USER world_root;
     MESSAGE_UNATTACHED := MESSAGE_UNATTACHED world_root;
     STATUS_LEVEL := STATUS_LEVEL world_root;
     MOTD_UPDATES_AVAILABLE_CACHE_FILE := MOTD_UPDATES_AVAILABLE_CACHE_FILE world_root;
     MOTD_CACHE_FILE := MOTD_CACHE_FILE world_root;
     VERSION := VERSION world_root;
     cfg_accounts := cfg_accounts world_root;
     root_macaroon_answer := root_macaroon_answer world_root;
     extract_caveat_answer := extract_caveat_answer world_root;
     prompt_macaroon_answer := fun _ _ =>
       Raise (UrlError "https://login.ubuntu.com/api/v2/tokens/discharge" "timed out");
     bind_discharge_answer := bind_discharge_answer world_root;
     accounts_answer := accounts_answer world_root;
     account_contracts_answer := account_contracts_answer world_root;
     add_contract_token_answer := add_contract_token_answer world_root;
     machine_attach_answer := machine_attach_answer world_root;
     resource_access_answer := resource_access_answer world_root;
     can_disable_answer := can_disable_answer world_root;
     disable_answer := disable_answer world_root;
     enable_answer := enable_answer world_root;
     format_entitlement_status := format_entitlement_status world_root;
     get_motd_summary := get_motd_summary world_root |}.

(** The arguments of [status --update-motd]. *)
Definition motd_args : Args := mkArgs None None None None true "".

(** * Properties *)

Local Open Scope list_scope.

Section Properties.

Context (W : World).

(** ** Running the monad *)

Lemma bind_ret {A B} (m : M A) (k : A -> M B) (s : State) a s' :
  m s = (Ret a, s') -> bind m k s = k a s'.
Proof. intros H. unfold bind. now rewrite H. Qed.

Lemma bind_raise {A B} (m : M A) (k : A -> M B) (s : State) e s' :
  m s = (Raise e, s') -> bind m k s = (Raise e, s').
Proof. intros H. unfold bind. now rewrite H. Qed.

Lemma attached_lookup (s : State) :
  attached s = true <-> is_Some (cache s !! "machine-token").
Proof.
  unfold attached. destruct (cache s !! "machine-token") as [v|].
  - split; [eauto | reflexivity].
  - split; [discriminate | intros [v Hv]; discriminate].
Qed.

Lemma attached_false_lookup (s : State) :
  attached s = false <-> cache s !! "machine-token" = None.
Proof.
  unfold attached. destruct (cache s !! "machine-token"); split; congruence.
Qed.

(** ** Status *)

(** C7: [status] without [--update-motd] on a machine that is not attached
    prints the fixed message [MESSAGE_UNATTACHED] and nothing else, makes
    no call and leaves the cache as it was, and returns [None], with which
    the process exits with code 0. *)
Theorem status_unattached (args : Args) (s : State) :
  update_motd args = false ->
  attached s = false ->
  main W CmdStatus args s = (Ret None, add_stdout (MESSAGE_UNATTACHED W) s)
  /\ exit_status (fst (main W CmdStatus args s)) = 0
  /\ cache (snd (main W CmdStatus args s)) = cache s
  /\ trace (snd (main W CmdStatus args s)) = trace s.
Proof.
  intros Hmotd Hatt.
  assert (Hrun : main W CmdStatus args s
                 = (Ret None, add_stdout (MESSAGE_UNATTACHED W) s)).
  { cbn [main]. unfold action_status, status_update_motd.
    rewrite Hmotd. unfold bind, ret, is_attached. cbn. now rewrite Hatt. }
  rewrite Hrun. repeat split.
Qed.

(** ** Detach *)

(** C8: [detach] on a machine that is not attached prints the guidance
    message and returns 1 whatever the caller's uid, since that test comes
    first; on an attached machine a caller who is not root gets the fixed
    non-root message and 1.  In both cases no entitlement is asked
    anything and nothing is deleted: the state only gains the printed
    line. *)
Theorem detach_preconditions (args : Args) (s : State) :
  attached s = false \/ uid W <> 0 ->
  action_detach W args s
  = (Ret (Some 1),
     add_stdout (if attached s then MESSAGE_NONROOT_USER W
                 else MESSAGE_DETACH_UNATTACHED) s).
Proof.
  intros H. unfold action_detach, bind, ret, is_attached, os_getuid. cbn.
  destruct (attached s) eqn:Hatt; cbn; [|reflexivity].
  destruct H as [H|H]; [discriminate|].
  destruct (uid W =? 0) eqn:Hu; [apply Z.eqb_eq in Hu; contradiction|].
  reflexivity.
Qed.

Lemma with_calls_nil (s : State) : with_calls [] s = s.
Proof. destruct s. unfold with_calls. cbn. now rewrite app_nil_r. Qed.

Lemma with_calls_app (evs evs' : list event) (s : State) :
  with_calls evs' (with_calls evs s) = with_calls (evs ++ evs') s.
Proof. unfold with_calls. cbn. now rewrite app_assoc. Qed.

Lemma add_event_with_calls (ev : event) (s : State) :
  add_event ev s = with_calls [ev] s.
Proof. reflexivity. Qed.

Lemma ent_disable_root (ent : string) (silent : bool) (s : State) :
  uid W = 0 ->
  ent_disable W ent silent s
  = (Ret (disable_answer W ent silent s), add_event (EvDisable ent silent) s).
Proof.
  intros Hroot. unfold ent_disable, bind, os_getuid, ret. now rewrite Hroot.
Qed.

Lemma detach_entitlement_root (ent : string) (s : State) :
  uid W = 0 ->
  detach_entitlement W ent s
  = (Ret tt,
     with_calls (if can_disable_answer W ent true s
                 then [EvCanDisable ent true true; EvDisable ent true]
                 else [EvCanDisable ent true false]) s).
Proof.
  intros Hroot. unfold detach_entitlement, bind, ent_can_disable.
  destruct (can_disable_answer W ent true s).
  - rewrite ent_disable_root by exact Hroot.
    unfold ret. rewrite !add_event_with_calls, with_calls_app. reflexivity.
  - reflexivity.
Qed.

Lemma teardown_loop (ents : list string) (s : State) :
  uid W = 0 ->
  exists evs,
    teardown_calls ents evs
    /\ for_each ents (detach_entitlement W) s = (Ret tt, with_calls evs s).
Proof.
  intros Hroot. revert s.
  induction ents as [|ent ents IH]; intros s.
  - exists []. split; [constructor|]. cbn. unfold ret. now rewrite with_calls_nil.
  - cbn [for_each]. unfold bind.
    rewrite detach_entitlement_root by exact Hroot.
    match goal with
    | |- context [for_each ents _ ?s1] => destruct (IH s1) as (evs & Hevs & Hrun)
    end.
    rewrite Hrun, with_calls_app.
    destruct (can_disable_answer W ent true s); eexists; (split; [|reflexivity]);
      now constructor.
Qed.

(** What [detach] does for root on an attached machine: every entitlement
    of the registry is asked, in order, then [machine-token] and [oauth]
    are deleted, in that order, and the action returns 0. *)
Lemma detach_root (args : Args) (s : State) :
  attached s = true ->
  uid W = 0 ->
  exists evs,
    teardown_calls (ENTITLEMENT_CLASSES W) evs
    /\ action_detach W args s
       = (Ret (Some 0),
          mkState (delete "oauth" (delete "machine-token" (cache s)))
                  (trace s ++ evs
                     ++ [EvDeleteCache "machine-token"; EvDeleteCache "oauth"])
                  (stdout s ++ ["This machine is now detached"])
                  (errlog s)).
Proof.
  intros Hatt Hroot.
  destruct (teardown_loop (ENTITLEMENT_CLASSES W) s Hroot) as (evs & Hevs & Hrun).
  exists evs. split; [exact Hevs|].
  unfold action_detach. unfold bind at 1, is_attached. rewrite Hatt. cbn [negb].
  unfold bind at 1, os_getuid, ret at 1. rewrite Hroot. cbn [Z.eqb negb].
  unfold bind at 1. rewrite Hrun.
  unfold bind, delete_cache, print, ret, with_calls, add_event, add_stdout, set_cache.
  cbn. rewrite <- !app_assoc. reflexivity.
Qed.

(** The deletion of [detach] reaches [machine-token], and leaves the
    credential that [attach] wrote under [bound-macaroon] where it was. *)
Lemma detach_root_cache (args : Args) (s : State) :
  attached s = true ->
  uid W = 0 ->
  cache (snd (action_detach W args s)) !! "machine-token" = None
  /\ cache (snd (action_detach W args s)) !! "bound-macaroon"
     = cache s !! "bound-macaroon".
Proof.
  intros Hatt Hroot.
  destruct (detach_root args s Hatt Hroot) as (evs & _ & Hrun).
  rewrite Hrun. cbn. split.
  - rewrite lookup_delete_ne by done. apply lookup_delete_eq.
  - rewrite !lookup_delete_ne by done. reflexivity.
Qed.

(** ** Attach, block by block *)

(** Case analysis on the answers a run depends on, innermost first. *)
Ltac split_run H :=
  repeat match type of H with
         | context [match ?x with _ => _ end] =>
             lazymatch x with
             | context [match _ with _ => _ end] => fail
             | _ => destruct x eqn:?
             end
         end.

Ltac close_run H :=
  injection H as <- <-; cbn; rewrite <- ?app_assoc; cbn.

(** The exchange from the accounts request to the machine token: its calls
    are an initial part of [exchange_calls], the accounts request with the
    bound credential always comes first, nothing is printed, and the cache
    changes only when the machine token is issued, by the write of
    [machine-token]. *)
Lemma issue_machine_token_spec (tok : json) (s : State) r s' :
  issue_machine_token W tok s = (r, s') ->
  exists (evs : list event) (cid ct mt : json),
    trace s' = (trace s ++ EvAccounts tok :: evs)%list
    /\ (EvAccounts tok :: evs) `prefix_of` exchange_calls tok cid ct mt
    /\ stdout s' = stdout s
    /\ match r with
       | Ret (inr resp) =>
           EvAccounts tok :: evs = exchange_calls tok cid ct resp
           /\ cache s' = <["machine-token" := resp]> (cache s)
       | Ret (inl code) => code = 1 /\ cache s' = cache s
       | Raise _ => cache s' = cache s
       end.
Proof.
  intros H.
  unfold issue_machine_token, try_except, bind, request_accounts,
    request_account_contracts, request_add_contract_token,
    request_contract_machine_attach, bind, call, lift, ret, write_cache,
    logging_error in H.
  cbn in H. split_run H; try discriminate.
  all: close_run H.
  all: eexists _, _, _, _.
  all: (split; [reflexivity|]).
  all: (split; [unfold exchange_calls; eexists; cbn; reflexivity|]).
  all: (split; [reflexivity|]).
  all: try reflexivity.
  all: try (split; reflexivity).
  Unshelve. all: exact JNull.
Qed.

Lemma machine_token_of_with_calls (evs : list event) (s : State) :
  machine_token_of (with_calls evs s) = machine_token_of s.
Proof. reflexivity. Qed.

Lemma grant_resource_access_cons (ent : string) (ents : list string) (s : State) :
  grant_resource_access W (ent :: ents) s
  = match resource_access_answer W (machine_token_of s) ent s with
    | Ret _ =>
        grant_resource_access W ents
          (add_event (EvResourceAccess (machine_token_of s) ent) s)
    | Raise e => (Raise e, add_event (EvResourceAccess (machine_token_of s) ent) s)
    end.
Proof.
  unfold grant_resource_access. cbn [for_each].
  unfold bind, machine_token, request_resource_machine_access, call, ret.
  now destruct (resource_access_answer W (machine_token_of s) ent s).
Qed.

(** The grant loop issues its requests in the order of the names, each with
    the machine token of the cache, and stops at the first one that raises;
    it changes nothing but the list of calls. *)
Lemma grant_resource_access_spec (ents : list string) (s : State) r s' :
  grant_resource_access W ents s = (r, s') ->
  exists requested : list string,
    requested `prefix_of` ents
    /\ s' = with_calls (map (EvResourceAccess (machine_token_of s)) requested) s
    /\ (r = Ret tt -> requested = ents).
Proof.
  revert s. induction ents as [|ent ents IH]; intros s H.
  - cbn in H. injection H as <- <-. exists []. split; [done|].
    split; [now rewrite with_calls_nil | reflexivity].
  - rewrite grant_resource_access_cons in H.
    destruct (resource_access_answer W (machine_token_of s) ent s) eqn:Hans.
    + apply IH in H as (requested & Hpre & -> & Hall).
      exists (ent :: requested). split; [now apply prefix_cons|].
      split.
      * rewrite add_event_with_calls, with_calls_app. reflexivity.
      * intros Hr. now rewrite Hall.
    + injection H as <- <-. exists [ent]. split.
      * apply prefix_cons, prefix_nil.
      * split; [reflexivity | discriminate].
Qed.

(** Going through a list in two parts. *)
Lemma for_each_app {A} (xs ys : list A) (body : A -> M unit) (s : State) :
  for_each (xs ++ ys) body s
  = match for_each xs body s with
    | (Ret _, s1) => for_each ys body s1
    | (Raise e, s1) => (Raise e, s1)
    end.
Proof.
  revert s. induction xs as [|x xs IH]; intros s; [reflexivity|].
  cbn [for_each app]. unfold bind.
  destruct (body x s) as [[[]|e] s1]; [apply IH | reflexivity].
Qed.

(** When the requests for [before] went through and the one for [ent]
    raises, the loop stops there: the requests for [after] are not made. *)
Lemma grant_resource_access_failure (before after : list string) (ent : string)
    (s s1 : State) (e : exn) :
  grant_resource_access W before s = (Ret tt, s1) ->
  resource_access_answer W (machine_token_of s) ent s1 = Raise e ->
  grant_resource_access W (before ++ ent :: after) s
  = (Raise e,
     with_calls (map (EvResourceAccess (machine_token_of s)) (before ++ [ent])) s).
Proof.
  intros Hbefore Hraise.
  pose proof (grant_resource_access_spec _ _ _ _ Hbefore) as (requested & _ & Hs1 & Hall).
  rewrite (Hall eq_refl) in Hs1. clear Hall requested.
  unfold grant_resource_access in *. rewrite for_each_app, Hbefore.
  fold (grant_resource_access W (ent :: after) s1).
  rewrite grant_resource_access_cons.
  assert (Hmt : machine_token_of s1 = machine_token_of s) by now subst s1.
  rewrite Hmt, Hraise. f_equal. subst s1.
  rewrite add_event_with_calls, with_calls_app, map_app. reflexivity.
Qed.

(** [status] never touches the cache, and without [--update-motd] it makes
    no call at all. *)
Lemma action_status_none (s : State) r s' :
  action_status W None s = (r, s') ->
  cache s' = cache s /\ trace s' = trace s /\ errlog s' = errlog s.
Proof.
  intros H.
  unfold action_status, status_update_motd, bind, is_attached, machine_token,
    accounts, lift, ret, print in H.
  cbn in H. split_run H; injection H as <- <-; cbn; repeat split.
Qed.

(** After the machine token: the access requests are the only calls, and
    the cache stays as the exchange left it. *)
Lemma attach_entitlements_spec (resp : json) (s : State) r s' :
  attach_entitlements W resp s = (r, s') ->
  exists requested : list string,
    trace s' = (trace s ++ map (EvResourceAccess (machine_token_of s)) requested)%list
    /\ cache s' = cache s
    /\ errlog s' = errlog s.
Proof.
  intros H.
  unfold attach_entitlements, bind, lift, ret, print in H.
  split_run H; try discriminate.
  all: repeat match goal with
         | Hg : grant_resource_access W _ _ = _ |- _ =>
             apply grant_resource_access_spec in Hg as (requested & _ & -> & _)
         | Hs : action_status W None _ = _ |- _ =>
             apply action_status_none in Hs as (Hc & Ht & He); cbn in Hc, Ht, He
         end.
  all: injection H as <- <-.
  all: try (exists requested; cbn; repeat split; congruence).
  all: exists []; cbn; rewrite app_nil_r; repeat split.
Qed.

(** The credential of [args.token], when it is a non-empty string, is
    taken as it is: no call is made for it. *)
Lemma obtain_sso_token_supplied (args : Args) (s : State) (t : string) :
  token args = Some t ->
  t <> "" ->
  obtain_sso_token W args s = (Ret (inr (JStr t)), s).
Proof.
  intros Htok Hne. unfold obtain_sso_token. rewrite Htok. cbn.
  destruct (String.eqb_spec t ""); [contradiction | reflexivity].
Qed.

(** Without a usable [args.token] the identity exchange runs: its calls are
    an initial part of [identity_calls] that starts with the request for
    the root macaroon, and all four when a credential comes out.  Neither
    the cache nor the output changes. *)
Lemma obtain_sso_token_exchange (args : Args) (s : State) r s' :
  truthy (token_value (token args)) = false ->
  obtain_sso_token W args s = (r, s') ->
  exists (evs : list event) (macaroon caveat_id discharge : json),
    trace s' = (trace s ++ EvRootMacaroon :: evs)%list
    /\ (EvRootMacaroon :: evs) `prefix_of` identity_calls macaroon caveat_id discharge
    /\ cache s' = cache s
    /\ stdout s' = stdout s
    /\ match r with
       | Ret (inr _) => EvRootMacaroon :: evs = identity_calls macaroon caveat_id discharge
       | Ret (inl code) => code = 1
       | Raise _ => True
       end.
Proof.
  intros Hfalse H.
  unfold obtain_sso_token in H. rewrite Hfalse in H. cbn [negb] in H.
  unfold try_except, bind, request_root_macaroon, extract_macaroon_caveat_id,
    prompt_request_macaroon, bind_discharge_macarooon_to_root_macaroon, call,
    lift, ret, logging_error in H.
  cbn in H. split_run H; try discriminate.
  all: repeat match goal with
         | Hq : Ret _ = Ret _ |- _ => injection Hq as Hq; subst
         end.
  all: close_run H.
  all: eexists _, _, _, _.
  all: (split; [reflexivity|]).
  all: (split; [unfold identity_calls; eexists; cbn; reflexivity|]).
  all: (split; [reflexivity|]).
  all: (split; [reflexivity|]).
  all: try reflexivity.
  all: try exact I.
  Unshelve. all: exact JNull.
Qed.

(** With a credential that is true, [attach] writes it under
    [bound-macaroon] first, then asks for the accounts with it; the calls
    that follow are an initial part of the exchange and of the access
    requests, all made with that credential and with the machine token it
    led to. *)
Lemma attach_with_token_spec (tok : json) (s : State) r s' :
  truthy tok = true ->
  attach_with_token W tok s = (r, s') ->
  exists (evs : list event) (cid ct mt : json) (requested : list string),
    trace s' = (trace s ++ EvWriteCache "bound-macaroon" tok :: EvAccounts tok :: evs)%list
    /\ (EvAccounts tok :: evs)
         `prefix_of` (exchange_calls tok cid ct mt ++ map (EvResourceAccess mt) requested).
Proof.
  intros Htrue H.
  unfold attach_with_token in H. rewrite Htrue in H. cbn [negb] in H.
  unfold bind at 1 in H. unfold write_cache at 1 in H.
  unfold bind at 1 in H.
  destruct (issue_machine_token W tok _) as [r1 s1] eqn:Hissue.
  apply issue_machine_token_spec in Hissue
    as (evs & cid & ct & mt & Htrace & Hpre & _ & Hcache).
  cbn in Htrace. rewrite <- app_assoc in Htrace. cbn in Htrace.
  destruct r1 as [[code|resp]|e].
  - injection H as <- <-. exists evs, cid, ct, mt, [].
    split; [exact Htrace|]. now apply prefix_app_r.
  - destruct Hcache as [Hall Hcache].
    apply attach_entitlements_spec in H as (requested & Ht & _ & _).
    assert (Hmt : machine_token_of s1 = resp).
    { unfold machine_token_of. rewrite Hcache. now rewrite lookup_insert_eq. }
    rewrite Hmt in Ht.
    exists (evs ++ map (EvResourceAccess resp) requested)%list, cid, ct, resp, requested.
    split.
    + rewrite Ht, Htrace. rewrite <- app_assoc. reflexivity.
    + rewrite app_comm_cons, Hall. reflexivity.
  - injection H as <- <-. exists evs, cid, ct, mt, [].
    split; [exact Htrace|]. now apply prefix_app_r.
Qed.

Lemma prefix_Forall {A} (P : A -> Prop) (l1 l2 : list A) :
  l1 `prefix_of` l2 -> Forall P l2 -> Forall P l1.
Proof. intros [k ->] H. now apply Forall_app in H as [H _]. Qed.

Lemma exchange_not_identity (tok cid ct mt : json) (requested : list string) :
  Forall (fun ev => is_identity_exchange ev = false)
    (exchange_calls tok cid ct mt ++ map (EvResourceAccess mt) requested).
Proof.
  apply Forall_app. split.
  - unfold exchange_calls. repeat constructor.
  - apply Forall_forall. intros ev Hin. apply list_elem_of_In, in_map_iff in Hin
      as (x & <- & _). reflexivity.
Qed.

Lemma identity_not_mutation (macaroon caveat_id discharge : json) :
  Forall (fun ev => is_cache_mutation ev = false)
    (identity_calls macaroon caveat_id discharge).
Proof. unfold identity_calls. repeat constructor. Qed.

Lemma action_attach_unattached_root (args : Args) (s : State) :
  attached s = false ->
  uid W = 0 ->
  action_attach W args s
  = match obtain_sso_token W args s with
    | (Ret (inl code), s1) => (Ret (Some code), s1)
    | (Ret (inr sso_token), s1) => attach_with_token W sso_token s1
    | (Raise e, s1) => (Raise e, s1)
    end.
Proof.
  intros Hatt Hroot. unfold action_attach, bind, is_attached, os_getuid, ret.
  rewrite Hatt, Hroot. cbn.
  now destruct (obtain_sso_token W args s) as [[[code|tok]|e] s1].
Qed.

(** ** Attach: the guards *)

(** On a machine that is already attached and whose account name can be
    read, [attach] makes no call at all, so no network request, leaves the
    cache as it was, and returns 0 after printing the name of the account,
    which it reads as [cfg.accounts[0]['name']]. *)
Theorem attach_already_attached (args : Args) (s : State)
    (accts account account_name : json) :
  attached s = true ->
  cfg_accounts W s = Ret accts ->
  getitem0 accts = Ret account ->
  getitem account "name" = Ret account_name ->
  action_attach W args s
  = (Ret (Some 0),
     add_stdout ("This machine is already attached to '"
                 ++ py_str W account_name ++ "'.")%string s)
  /\ trace (snd (action_attach W args s)) = trace s
  /\ cache (snd (action_attach W args s)) = cache s.
Proof.
  intros Hatt Haccts Hacct Hname.
  assert (Hrun : action_attach W args s
                 = (Ret (Some 0),
                    add_stdout ("This machine is already attached to '"
                                ++ py_str W account_name ++ "'.")%string s)).
  { unfold action_attach, bind, is_attached, accounts, lift, print, ret.
    now rewrite Hatt, Haccts, Hacct, Hname. }
  rewrite Hrun. repeat split.
Qed.

(** Whatever [cfg.accounts] holds, [attach] on an attached machine makes no
    call and leaves the cache alone. *)
Lemma attach_already_attached_frame (args : Args) (s : State) :
  attached s = true ->
  trace (snd (action_attach W args s)) = trace s
  /\ cache (snd (action_attach W args s)) = cache s.
Proof.
  intros Hatt.
  unfold action_attach, bind, is_attached, accounts, lift, print, ret.
  rewrite Hatt.
  destruct (cfg_accounts W s) as [accts|]; [|now split].
  destruct (getitem0 accts) as [account|]; [|now split].
  destruct (getitem account "name"); now split.
Qed.

Lemma action_attach_nonroot (args : Args) (s : State) :
  attached s = false ->
  uid W <> 0 ->
  action_attach W args s = (Ret (Some 1), add_stdout (MESSAGE_NONROOT_USER W) s).
Proof.
  intros Hatt Hu. apply Z.eqb_neq in Hu.
  unfold action_attach, bind, is_attached, os_getuid, print, ret.
  now rewrite Hatt, Hu.
Qed.


(** ** Attach: the credential *)

(** When [attach] is given a token, a non-empty string, none of the
    steps of the identity exchange is made.  The calls of the run are an
    initial part of: the write of the token under [bound-macaroon], the
    accounts, contracts and contract-token requests with that very token,
    the machine-token request with the contract token obtained for it, the
    write of [machine-token], the access requests.  On a machine that is
    not attached and for root, the write and the accounts request with the
    token are always made. *)
Theorem attach_explicit_token (args : Args) (s : State) (t : string) :
  token args = Some t ->
  t <> "" ->
  exists (evs : list event) (cid ct mt : json) (requested : list string),
    trace (snd (action_attach W args s)) = trace s ++ evs
    /\ evs `prefix_of`
         (EvWriteCache "bound-macaroon" (JStr t)
            :: exchange_calls (JStr t) cid ct mt
            ++ map (EvResourceAccess mt) requested)
    /\ Forall (fun ev => is_identity_exchange ev = false) evs
    /\ (attached s = false -> uid W = 0 ->
        exists evs', evs = EvWriteCache "bound-macaroon" (JStr t)
                             :: EvAccounts (JStr t) :: evs').
Proof.
  intros Htok Hne.
  destruct (attached s) eqn:Hatt.
  { destruct (attach_already_attached_frame args s Hatt) as [Ht _].
    exists [], JNull, JNull, JNull, []. rewrite Ht, app_nil_r.
    repeat split; [apply prefix_nil | constructor | discriminate]. }
  destruct (Z.eq_dec (uid W) 0) as [Hroot|Hu].
  2:{ rewrite (action_attach_nonroot args s Hatt Hu). cbn.
      exists [], JNull, JNull, JNull, []. rewrite app_nil_r.
      repeat split; [apply prefix_nil | constructor | contradiction]. }
  rewrite (action_attach_unattached_root args s Hatt Hroot).
  rewrite (obtain_sso_token_supplied args s t Htok Hne).
  destruct (attach_with_token W (JStr t) s) as [r s'] eqn:Hrun.
  apply attach_with_token_spec in Hrun
    as (evs & cid & ct & mt & requested & Htrace & Hpre).
  2:{ cbn. now destruct (String.eqb_spec t ""). }
  exists (EvWriteCache "bound-macaroon" (JStr t) :: EvAccounts (JStr t) :: evs),
    cid, ct, mt, requested.
  cbn [snd]. split; [exact Htrace|].
  split; [now apply prefix_cons|].
  split; [|intros _ _; now exists evs].
  constructor; [reflexivity|].
  eapply prefix_Forall; [exact Hpre | apply exchange_not_identity].
Qed.

(** On a machine that is not attached and for root, [attach] takes
    the token it is given as the credential exactly when that token is a
    non-empty string: then its first call is the write of the token under
    [bound-macaroon], and no step of the identity exchange is made.  With
    no token, or with the empty string, which behaves as no token at all,
    the run starts with the request for the root macaroon and goes through
    the steps of the identity exchange, all four of them before anything
    else is called.  When the credential that comes out is false, [attach]
    prints its failure message and returns 1, and up to then nothing was
    written to the cache. *)
Theorem attach_token_path (args : Args) (s : State) :
  attached s = false ->
  uid W = 0 ->
  (forall t, token args = Some t -> t <> "" ->
     exists evs,
       trace (snd (action_attach W args s))
       = trace s ++ EvWriteCache "bound-macaroon" (JStr t) :: evs
       /\ Forall (fun ev => is_identity_exchange ev = false) evs)
  /\ (token args = None \/ token args = Some "" ->
      action_attach W args s = action_attach W (with_token None args) s
      /\ exists (evs1 evs2 : list event) (macaroon caveat_id discharge : json),
           trace (snd (action_attach W args s))
           = trace s ++ (EvRootMacaroon :: evs1) ++ evs2
           /\ (EvRootMacaroon :: evs1)
                `prefix_of` identity_calls macaroon caveat_id discharge
           /\ (evs2 <> [] ->
               EvRootMacaroon :: evs1 = identity_calls macaroon caveat_id discharge))
  /\ (forall v s1,
        obtain_sso_token W args s = (Ret (inr v), s1) ->
        truthy v = false ->
        action_attach W args s = (Ret (Some 1), add_stdout MESSAGE_NO_USER_TOKEN s1)
        /\ cache s1 = cache s
        /\ exists evs, trace s1 = trace s ++ evs
                       /\ Forall (fun ev => is_cache_mutation ev = false) evs).
Proof.
  intros Hatt Hroot. split; [|split].
  - intros t Htok Hne.
    rewrite (action_attach_unattached_root args s Hatt Hroot).
    rewrite (obtain_sso_token_supplied args s t Htok Hne).
    destruct (attach_with_token W (JStr t) s) as [r s'] eqn:Hrun.
    apply attach_with_token_spec in Hrun
      as (evs & cid & ct & mt & requested & Htrace & Hpre).
    2:{ cbn. now destruct (String.eqb_spec t ""). }
    exists (EvAccounts (JStr t) :: evs). split; [exact Htrace|].
    eapply prefix_Forall; [exact Hpre | apply exchange_not_identity].
  - intros Hnone.
    assert (Hfalse : truthy (token_value (token args)) = false)
      by (destruct Hnone as [-> | ->]; reflexivity).
    split.
    { rewrite !(action_attach_unattached_root _ s Hatt Hroot).
      unfold obtain_sso_token. rewrite Hfalse. reflexivity. }
    rewrite (action_attach_unattached_root args s Hatt Hroot).
    destruct (obtain_sso_token W args s) as [r s1] eqn:Hobt.
    apply (obtain_sso_token_exchange args s r s1 Hfalse) in Hobt
      as (evs1 & macaroon & caveat_id & discharge & Ht1 & Hpre & _ & _ & Hfull).
    destruct r as [[code|tok]|e].
    + exists evs1, [], macaroon, caveat_id, discharge. cbn [snd].
      rewrite app_nil_r. repeat split; [exact Ht1 | exact Hpre | congruence].
    + destruct (truthy tok) eqn:Htrue.
      * destruct (attach_with_token W tok s1) as [r2 s2] eqn:Hrun.
        apply attach_with_token_spec in Hrun
          as (evs & cid & ct & mt & requested & Htrace & _); [|exact Htrue].
        eexists evs1, _, macaroon, caveat_id, discharge. cbn [snd].
        split; [rewrite Htrace, Ht1, <- app_assoc; reflexivity|].
        split; [exact Hpre | intros _; exact Hfull].
      * unfold attach_with_token. rewrite Htrue. cbn.
        exists evs1, [], macaroon, caveat_id, discharge.
        rewrite app_nil_r. repeat split; [exact Ht1 | exact Hpre | congruence].
    + exists evs1, [], macaroon, caveat_id, discharge. cbn [snd].
      rewrite app_nil_r. repeat split; [exact Ht1 | exact Hpre | congruence].
  - intros v s1 Hobt Hv.
    rewrite (action_attach_unattached_root args s Hatt Hroot), Hobt.
    split; [unfold attach_with_token; now rewrite Hv|].
    destruct (truthy (token_value (token args))) eqn:Htok.
    + unfold obtain_sso_token in Hobt. rewrite Htok in Hobt.
      injection Hobt as <- <-. congruence.
    + apply (obtain_sso_token_exchange args s _ s1 Htok) in Hobt
        as (evs1 & macaroon & caveat_id & discharge & Ht1 & Hpre & Hc & _ & _).
      split; [exact Hc|]. exists (EvRootMacaroon :: evs1). split; [exact Ht1|].
      eapply prefix_Forall; [exact Hpre | apply identity_not_mutation].
Qed.

(** Getting the credential changes neither the cache nor the output. *)
Lemma obtain_sso_token_frame (args : Args) (s : State) r s1 :
  obtain_sso_token W args s = (r, s1) ->
  cache s1 = cache s /\ stdout s1 = stdout s.
Proof.
  intros H. destruct (truthy (token_value (token args))) eqn:Htok.
  - unfold obtain_sso_token in H. rewrite Htok in H. injection H as <- <-.
    now split.
  - apply (obtain_sso_token_exchange args s r s1 Htok) in H
      as (_ & _ & _ & _ & _ & _ & Hc & Ho & _).
    now split.
Qed.

Lemma attach_with_token_run (tok : json) (s1 : State) :
  truthy tok = true ->
  attach_with_token W tok s1
  = match issue_machine_token W tok (snd (write_cache "bound-macaroon" tok s1)) with
    | (Ret (inl code), s2) => (Ret (Some code), s2)
    | (Ret (inr resp), s2) => attach_entitlements W resp s2
    | (Raise e, s2) => (Raise e, s2)
    end.
Proof.
  intros Htrue. unfold attach_with_token. rewrite Htrue. cbn [negb].
  unfold bind, write_cache. cbn [snd].
  now destruct (issue_machine_token W tok _) as [[[code|resp]|e] s2].
Qed.

(** C5, with the key the code uses: once [attach] holds a credential, its
    next call is the write of that credential under [bound-macaroon], and
    the accounts request comes right after it, before any other request.
    When the exchange that follows does not come to a machine token,
    [attach] ends there without success, and the cache then holds the
    credential under [bound-macaroon] and nothing under [machine-token]. *)
Theorem attach_bound_macaroon_first (args : Args) (s s1 s2 : State)
    (tok : json) (r1 : outcome (Z + json)) :
  attached s = false ->
  uid W = 0 ->
  obtain_sso_token W args s = (Ret (inr tok), s1) ->
  truthy tok = true ->
  issue_machine_token W tok (snd (write_cache "bound-macaroon" tok s1)) = (r1, s2) ->
  (exists evs,
     trace (snd (action_attach W args s))
     = trace s1 ++ EvWriteCache "bound-macaroon" tok :: EvAccounts tok :: evs)
  /\ ((forall resp, r1 <> Ret (inr resp)) ->
      snd (action_attach W args s) = s2
      /\ fst (action_attach W args s) <> Ret (Some 0)
      /\ cache s2 !! "bound-macaroon" = Some tok
      /\ cache s2 !! "machine-token" = None).
Proof.
  intros Hatt Hroot Hobt Htrue Hissue.
  rewrite (action_attach_unattached_root args s Hatt Hroot), Hobt.
  split.
  - destruct (attach_with_token W tok s1) as [r s'] eqn:Hrun.
    apply attach_with_token_spec in Hrun
      as (evs & _ & _ & _ & _ & Htrace & _); [|exact Htrue].
    now exists evs.
  - intros Hfail.
    apply obtain_sso_token_frame in Hobt as [Hc1 _].
    rewrite (attach_with_token_run tok s1 Htrue), Hissue.
    apply issue_machine_token_spec in Hissue
      as (evs & cid & ct & mt & _ & _ & _ & Hcache).
    apply attached_false_lookup in Hatt.
    destruct r1 as [[code|resp]|e].
    + destruct Hcache as [-> Hcache]. cbn.
      repeat split; [discriminate | |]; rewrite Hcache; cbn.
      * apply lookup_insert_eq.
      * rewrite lookup_insert_ne by done. now rewrite Hc1.
    + now destruct (Hfail resp).
    + cbn. repeat split; [discriminate | |]; rewrite Hcache; cbn.
      * apply lookup_insert_eq.
      * rewrite lookup_insert_ne by done. now rewrite Hc1.
Qed.

(** C2, as the code has it: the access requests are made one after the
    other with no handler around them.  When the requests for the names
    [before] went through and the request for [ent] raises, [attach] ends
    with that exception, and the process with status 1: the requests for
    the names [after] are not made, no success is reported, and the machine
    token stays in the cache. *)
Theorem attach_grant_failure_propagates (args : Args) (s s1 s2 s3 : State)
    (tok resp mti contractInfo resources : json)
    (before after : list string) (ent : string) (e : exn) :
  attached s = false ->
  uid W = 0 ->
  obtain_sso_token W args s = (Ret (inr tok), s1) ->
  truthy tok = true ->
  issue_machine_token W tok (snd (write_cache "bound-macaroon" tok s1))
  = (Ret (inr resp), s2) ->
  getitem resp "machineTokenInfo" = Ret mti ->
  getitem mti "contractInfo" = Ret contractInfo ->
  getitem contractInfo "resourceEntitlements" = Ret resources ->
  dict_keys resources = Ret (before ++ ent :: after) ->
  grant_resource_access W before s2 = (Ret tt, s3) ->
  resource_access_answer W resp ent s3 = Raise e ->
  action_attach W args s
  = (Raise e, with_calls (map (EvResourceAccess resp) (before ++ [ent])) s2)
  /\ exit_status (fst (action_attach W args s)) = 1
  /\ stdout (snd (action_attach W args s)) = stdout s
  /\ cache (snd (action_attach W args s)) !! "machine-token" = Some resp.
Proof.
  intros Hatt Hroot Hobt Htrue Hissue Hmti Hci Hres Hkeys Hbefore Hraise.
  assert (Hmt : machine_token_of s2 = resp).
  { apply issue_machine_token_spec in Hissue
      as (evs & cid & ct & mt & _ & _ & _ & _ & Hc).
    unfold machine_token_of. rewrite Hc. now rewrite lookup_insert_eq. }
  assert (Hrun : action_attach W args s
                 = (Raise e,
                    with_calls (map (EvResourceAccess resp) (before ++ [ent])) s2)).
  { rewrite (action_attach_unattached_root args s Hatt Hroot), Hobt.
    rewrite (attach_with_token_run tok s1 Htrue), Hissue.
    unfold attach_entitlements, bind, lift.
    rewrite Hmti, Hci, Hres, Hkeys.
    rewrite <- Hmt in Hraise |- *.
    now rewrite (grant_resource_access_failure before after ent s2 s3 e Hbefore Hraise). }
  rewrite Hrun. cbn. repeat split.
  - apply issue_machine_token_spec in Hissue
      as (evs & cid & ct & mt & _ & _ & Ho & _).
    apply obtain_sso_token_frame in Hobt as [_ Ho1].
    rewrite Ho. cbn. exact Ho1.
  - apply issue_machine_token_spec in Hissue
      as (evs & cid & ct & mt & _ & _ & _ & _ & Hc).
    rewrite Hc. apply lookup_insert_eq.
Qed.

(** ** Status on an attached machine *)

Lemma status_update_motd_run (update : bool) (s : State) :
  status_update_motd W update s = (Ret tt, snd (status_update_motd W update s))
  /\ cache (snd (status_update_motd W update s)) = cache s.
Proof. destruct update; split; reflexivity. Qed.

(** C9: for a machine token whose contract has
    [effectiveTo = "2030-01-15T00:00:00.000000Z"], [strptime] reads the
    fifteenth of January 2030 and [status] prints, in the header of its
    summary, the line [Valid until: 2030-01-15]. *)
Theorem status_valid_until (args : option Args) (s : State)
    (mt mti contractInfo accts account account_name subscription : json) :
  let s0 := snd (status_update_motd W
                   (match args with Some a => update_motd a | None => false end) s) in
  cache s !! "machine-token" = Some mt ->
  getitem mt "machineTokenInfo" = Ret mti ->
  getitem mti "contractInfo" = Ret contractInfo ->
  getitem contractInfo "effectiveTo" = Ret (JStr "2030-01-15T00:00:00.000000Z") ->
  cfg_accounts W s0 = Ret accts ->
  getitem0 accts = Ret account ->
  getitem account "name" = Ret account_name ->
  getitem contractInfo "name" = Ret subscription ->
  strptime (JStr "2030-01-15T00:00:00.000000Z") = Ret (mkDatetime 2030 1 15 0 0 0 0)
  /\ action_status W args s
     = (Ret None,
        add_stdout
          (join nl
             (("Account: " ++ py_str W account_name ++ nl ++
               "Subscription: " ++ py_str W subscription ++ nl ++
               "Valid until: 2030-01-15" ++ nl ++
               "Technical support: " ++ STATUS_LEVEL W ++ nl)%string
              :: map (fun ent => format_entitlement_status W ent s0)
                   (ENTITLEMENT_CLASSES W)
              ++ [(nl ++ "Enable entitlements with `ua enable <service>`" ++ nl)%string]))
          s0).
Proof.
  intros s0 Hmt Hmti Hci Heff Haccts Hacct Hname Hsub.
  split; [reflexivity|].
  destruct (status_update_motd_run
              (match args with Some a => update_motd a | None => false end) s)
    as [Hmotd Hcache].
  subst s0.
  remember (snd (status_update_motd W
                   (match args with Some a => update_motd a | None => false end) s))
    as s0 eqn:Es0.
  assert (Hatt : attached s0 = true)
    by (unfold attached; now rewrite Hcache, Hmt).
  assert (Hmt0 : machine_token_of s0 = mt)
    by (unfold machine_token_of; now rewrite Hcache, Hmt).
  unfold action_status. unfold bind at 1. rewrite Hmotd.
  unfold bind, is_attached, machine_token, accounts, lift, print, ret.
  rewrite Hatt. cbn [negb]. rewrite Hmt0.
  rewrite Hmti, Hci, Heff.
  change (strptime (JStr "2030-01-15T00:00:00.000000Z"))
    with (Ret (mkDatetime 2030 1 15 0 0 0 0)).
  rewrite Haccts, Hacct, Hname, Hsub.
  reflexivity.
Qed.

End Properties.

(** * The sample machine

    The runs below evaluate the actions on the sample worlds: they show
    where the code departs from a statement, and that the hypotheses of the
    theorems above can be met. *)

Example strptime_sample :
  strptime (JStr "2030-01-15T00:00:00.000000Z")
  = Ret (mkDatetime 2030 1 15 0 0 0 0).
Proof. reflexivity. Qed.

Example strptime_short_fields :
  strptime (JStr "1999-2- 9t7:05:59.5z")
  = Ret (mkDatetime 1999 2 9 7 5 59 500000).
Proof. reflexivity. Qed.

Example strptime_no_fraction :
  strptime (JStr "2030-01-15T00:00:00Z") = Raise ValueError.
Proof. reflexivity. Qed.

Example strptime_bad_day :
  strptime (JStr "2031-02-29T00:00:00.0Z") = Raise ValueError.
Proof. reflexivity. Qed.

Example date_str_sample : date_str (mkDatetime 2030 1 15 0 0 0 0) = "2030-01-15"%string.
Proof. reflexivity. Qed.

(** C1: [attach] with the token "tok123" writes it under [bound-macaroon];
    [detach] by root then asks every entitlement of the registry, disables
    the one that can be, deletes [machine-token] and [oauth], and returns
    0: the entry [bound-macaroon] that [attach] wrote is still in the
    cache. *)
Theorem detach_leaves_bound_macaroon :
  fst (action_attach world_root (token_args "tok123") fresh_state) = Ret (Some 0)
  /\ cache state_after_attach !! "bound-macaroon" = Some (JStr "tok123")
  /\ attached state_after_attach = true
  /\ fst (action_detach world_root no_args state_after_attach) = Ret (Some 0)
  /\ trace (snd (action_detach world_root no_args state_after_attach))
     = trace state_after_attach
       ++ [ EvCanDisable "esm" true true; EvDisable "esm" true;
            EvCanDisable "fips" true false;
            EvCanDisable "fips-updates" true false;
            EvCanDisable "livepatch" true false;
            EvDeleteCache "machine-token"; EvDeleteCache "oauth" ]
  /\ cache (snd (action_detach world_root no_args state_after_attach))
       !! "machine-token" = None
  /\ cache (snd (action_detach world_root no_args state_after_attach))
       !! "bound-macaroon" = Some (JStr "tok123").
Proof. vm_compute. repeat split. Qed.

(** C2 fails on the code: of the three access requests, the one for [fips]
    alone is refused; the request for [livepatch] is then never made, and
    [attach] ends with the exception instead of returning 0, having printed
    nothing. *)
Lemma attach_grant_failure_counterexample :
  resource_access_answer world_fips_refused sample_machine_token "esm" state_issued
  = Ret (JDict [("entitlement", JStr "esm")])
  /\ resource_access_answer world_fips_refused sample_machine_token "livepatch"
       state_issued
     = Ret (JDict [("entitlement", JStr "livepatch")])
  /\ fst (action_attach world_fips_refused (token_args "tok123") fresh_state)
     = Raise (UrlError "fips" "access refused")
  /\ exit_status (fst (action_attach world_fips_refused (token_args "tok123") fresh_state))
     = 1
  /\ trace (snd (action_attach world_fips_refused (token_args "tok123") fresh_state))
     = [ EvWriteCache "bound-macaroon" (JStr "tok123");
         EvAccounts (JStr "tok123");
         EvAccountContracts (JStr "tok123");
         EvAddContractToken (JStr "tok123") (JStr "cid-1");
         EvMachineAttach (JStr "ctok-1");
         EvWriteCache "machine-token" sample_machine_token;
         EvResourceAccess sample_machine_token "esm";
         EvResourceAccess sample_machine_token "fips" ]
  /\ stdout (snd (action_attach world_fips_refused (token_args "tok123") fresh_state))
     = [].
Proof. vm_compute. repeat split. Qed.


(** C5 fails on the code for the key it names: after an [attach] that
    stops at the accounts request, the credential is in the cache under
    [bound-macaroon], and there is nothing under [bound-token]. *)
Lemma bound_token_key_counterexample :
  fst (action_attach world_accounts_down (token_args "tok123") fresh_state)
  = Ret (Some 1)
  /\ trace (snd (action_attach world_accounts_down (token_args "tok123") fresh_state))
     = [ EvWriteCache "bound-macaroon" (JStr "tok123"); EvAccounts (JStr "tok123") ]
  /\ cache (snd (action_attach world_accounts_down (token_args "tok123") fresh_state))
       !! "bound-token" = None
  /\ cache (snd (action_attach world_accounts_down (token_args "tok123") fresh_state))
       !! "bound-macaroon" = Some (JStr "tok123").
Proof. vm_compute. repeat split. Qed.

(** ** The hypotheses of the theorems, met on the sample machine *)

Lemma status_unattached_witness :
  update_motd no_args = false
  /\ attached fresh_state = false
  /\ main world_user CmdStatus no_args fresh_state
     = (Ret None, add_stdout (MESSAGE_UNATTACHED world_user) fresh_state)
  /\ exit_status (fst (main world_user CmdStatus no_args fresh_state)) = 0.
Proof.
  split; [reflexivity|]. split; [reflexivity|].
  destruct (status_unattached world_user no_args fresh_state eq_refl eq_refl)
    as (Hrun & Hexit & _).
  split; [exact Hrun | exact Hexit].
Defined.

Lemma detach_preconditions_witness :
  (attached attached_state = false \/ uid world_user <> 0)
  /\ action_detach world_user no_args attached_state
     = (Ret (Some 1),
        add_stdout (if attached attached_state then MESSAGE_NONROOT_USER world_user
                    else MESSAGE_DETACH_UNATTACHED) attached_state).
Proof.
  assert (H : attached attached_state = false \/ uid world_user <> 0)
    by (right; cbn; discriminate).
  split; [exact H|].
  exact (detach_preconditions world_user no_args attached_state H).
Defined.

Lemma attach_already_attached_witness :
  attached attached_state = true
  /\ cfg_accounts world_user attached_state
     = Ret (JList [JDict [("name", JStr "blackberry")]])
  /\ fst (action_attach world_user no_args attached_state) = Ret (Some 0)
  /\ trace (snd (action_attach world_user no_args attached_state))
     = trace attached_state
  /\ cache (snd (action_attach world_user no_args attached_state))
     = cache attached_state.
Proof.
  split; [reflexivity|]. split; [reflexivity|].
  destruct (attach_already_attached world_user no_args attached_state
              (JList [JDict [("name", JStr "blackberry")]])
              (JDict [("name", JStr "blackberry")]) (JStr "blackberry")
              eq_refl eq_refl eq_refl eq_refl)
    as (Hrun & Htrace & Hcache).
  split; [now rewrite Hrun|]. split; [exact Htrace | exact Hcache].
Defined.


Lemma attach_explicit_token_witness :
  token (token_args "tok123") = Some "tok123"%string
  /\ "tok123"%string <> ""%string
  /\ exists (evs : list event) (cid ct mt : json) (requested : list string),
       trace (snd (action_attach world_root (token_args "tok123") fresh_state))
       = trace fresh_state ++ evs
       /\ Forall (fun ev => is_identity_exchange ev = false) evs.
Proof.
  assert (Hne : "tok123"%string <> ""%string) by discriminate.
  split; [reflexivity|]. split; [exact Hne|].
  destruct (attach_explicit_token world_root (token_args "tok123") fresh_state
              "tok123" eq_refl Hne)
    as (evs & cid & ct & mt & requested & Htrace & _ & Hid & _).
  exists evs, cid, ct, mt, requested. split; [exact Htrace | exact Hid].
Defined.

Lemma attach_token_path_witness :
  attached fresh_state = false
  /\ uid world_no_credential = 0
  /\ token no_args = None
  /\ obtain_sso_token world_no_credential no_args fresh_state
     = (Ret (inr JNull), snd (obtain_sso_token world_no_credential no_args fresh_state))
  /\ truthy JNull = false
  /\ action_attach world_no_credential no_args fresh_state
     = (Ret (Some 1),
        add_stdout MESSAGE_NO_USER_TOKEN
          (snd (obtain_sso_token world_no_credential no_args fresh_state)))
  /\ action_attach world_no_credential no_args fresh_state
     = action_attach world_no_credential (with_token None no_args) fresh_state.
Proof.
  split; [reflexivity|]. split; [reflexivity|]. split; [reflexivity|].
  split; [reflexivity|]. split; [reflexivity|].
  destruct (attach_token_path world_no_credential no_args fresh_state eq_refl eq_refl)
    as (_ & Habsent & Hfalsy).
  split.
  - exact (proj1 (Hfalsy JNull _ eq_refl eq_refl)).
  - exact (proj1 (Habsent (or_introl eq_refl))).
Defined.

Lemma attach_bound_macaroon_first_witness :
  attached fresh_state = false
  /\ uid world_accounts_down = 0
  /\ obtain_sso_token world_accounts_down (token_args "tok123") fresh_state
     = (Ret (inr (JStr "tok123")), fresh_state)
  /\ truthy (JStr "tok123") = true
  /\ issue_machine_token world_accounts_down (JStr "tok123") state_bound
     = (Ret (inl 1),
        snd (issue_machine_token world_accounts_down (JStr "tok123") state_bound))
  /\ cache (snd (issue_machine_token world_accounts_down (JStr "tok123") state_bound))
       !! "bound-macaroon" = Some (JStr "tok123")
  /\ cache (snd (issue_machine_token world_accounts_down (JStr "tok123") state_bound))
       !! "machine-token" = None.
Proof.
  split; [reflexivity|]. split; [reflexivity|]. split; [reflexivity|].
  split; [reflexivity|]. split; [reflexivity|].
  destruct (attach_bound_macaroon_first world_accounts_down (token_args "tok123")
              fresh_state fresh_state
              (snd (issue_machine_token world_accounts_down (JStr "tok123") state_bound))
              (JStr "tok123") (Ret (inl 1))
              eq_refl eq_refl eq_refl eq_refl eq_refl)
    as (_ & Hfail).
  destruct Hfail as (_ & _ & Hbound & Hmachine); [discriminate|].
  split; [exact Hbound | exact Hmachine].
Defined.

Lemma attach_grant_failure_propagates_witness :
  attached fresh_state = false
  /\ uid world_fips_refused = 0
  /\ obtain_sso_token world_fips_refused (token_args "tok123") fresh_state
     = (Ret (inr (JStr "tok123")), fresh_state)
  /\ truthy (JStr "tok123") = true
  /\ issue_machine_token world_fips_refused (JStr "tok123") state_bound
     = (Ret (inr sample_machine_token), state_issued)
  /\ dict_keys (JDict [ ("esm", JDict [("entitled", JBool true)]);
                        ("fips", JDict [("entitled", JBool true)]);
                        ("livepatch", JDict [("entitled", JBool true)]) ])
     = Ret (["esm"%string] ++ "fips"%string :: ["livepatch"%string])
  /\ grant_resource_access world_fips_refused ["esm"%string] state_issued
     = (Ret tt, state_esm_granted)
  /\ resource_access_answer world_fips_refused sample_machine_token "fips"
       state_esm_granted
     = Raise (UrlError "fips" "access refused")
  /\ action_attach world_fips_refused (token_args "tok123") fresh_state
     = (Raise (UrlError "fips" "access refused"),
        with_calls (map (EvResourceAccess sample_machine_token)
                      (["esm"%string] ++ ["fips"%string])) state_issued)
  /\ cache (snd (action_attach world_fips_refused (token_args "tok123") fresh_state))
       !! "machine-token" = Some sample_machine_token.
Proof.
  split; [reflexivity|]. split; [reflexivity|]. split; [reflexivity|].
  split; [reflexivity|]. split; [reflexivity|]. split; [reflexivity|].
  split; [reflexivity|]. split; [reflexivity|].
  destruct (attach_grant_failure_propagates world_fips_refused (token_args "tok123")
              fresh_state fresh_state state_issued state_esm_granted
              (JStr "tok123") sample_machine_token
              (JDict [("contractInfo", sample_contract_info)])
              sample_contract_info
              (JDict [ ("esm", JDict [("entitled", JBool true)]);
                       ("fips", JDict [("entitled", JBool true)]);
                       ("livepatch", JDict [("entitled", JBool true)]) ])
              ["esm"%string] ["livepatch"%string] "fips"
              (UrlError "fips" "access refused")
              eq_refl eq_refl eq_refl eq_refl eq_refl eq_refl eq_refl eq_refl
              eq_refl eq_refl eq_refl)
    as (Hrun & _ & _ & Hcache).
  split; [exact Hrun | exact Hcache].
Defined.

Lemma status_valid_until_witness :
  cache attached_state !! "machine-token" = Some sample_machine_token
  /\ getitem sample_contract_info "effectiveTo"
     = Ret (JStr "2030-01-15T00:00:00.000000Z")
  /\ stdout (snd (action_status world_user None attached_state))
     = [ join nl
           [ ("Account: blackberry" ++ nl ++
              "Subscription: blackberry/desktop" ++ nl ++
              "Valid until: 2030-01-15" ++ nl ++
              "Technical support: standard" ++ nl)%string;
             "esm: enabled"%string; "fips: enabled"%string;
             "fips-updates: enabled"%string; "livepatch: enabled"%string;
             (nl ++ "Enable entitlements with `ua enable <service>`" ++ nl)%string ] ].
Proof.
  split; [reflexivity|]. split; [reflexivity|].
  destruct (status_valid_until world_user None attached_state
              sample_machine_token
              (JDict [("contractInfo", sample_contract_info)])
              sample_contract_info
              (JList [JDict [("name", JStr "blackberry")]])
              (JDict [("name", JStr "blackberry")]) (JStr "blackberry")
              (JStr "blackberry/desktop")
              eq_refl eq_refl eq_refl eq_refl eq_refl eq_refl eq_refl eq_refl)
    as (_ & Hrun).
  rewrite Hrun. reflexivity.
Defined.


(** * Further properties of the actions *)

Section Further.

Context (W : World).

(** Case analysis on the answers a run depends on, innermost first, and
    the equations between the values it went through. *)
Ltac cases_of H :=
  repeat match type of H with
         | context [match ?x with _ => _ end] =>
             lazymatch x with
             | context [match _ with _ => _ end] => fail
             | _ => destruct x eqn:?
             end
         end;
  try discriminate;
  repeat match goal with
         | Hq : Ret _ = Ret _ |- _ => injection Hq as Hq; subst
         end.

(** ** Attach: what a run that returns 0 has done *)

(** The block after the machine token returns only 0, and then it has asked
    access for every key of [resourceEntitlements], in order. *)
Lemma attach_entitlements_done (resp : json) (s : State) v s' :
  attach_entitlements W resp s = (Ret v, s') ->
  v = Some 0
  /\ cache s' = cache s
  /\ exists (mti contractInfo resources : json) (names : list string),
       getitem resp "machineTokenInfo" = Ret mti
       /\ getitem mti "contractInfo" = Ret contractInfo
       /\ getitem contractInfo "resourceEntitlements" = Ret resources
       /\ dict_keys resources = Ret names
       /\ trace s' = trace s ++ map (EvResourceAccess (machine_token_of s)) names.
Proof.
  intros H.
  unfold attach_entitlements, bind, lift, ret, print in H.
  cases_of H.
  match goal with
  | Hg : grant_resource_access W _ _ = _ |- _ =>
      apply grant_resource_access_spec in Hg as (requested & _ & -> & Hall)
  end.
  match type of Hall with Ret ?u = _ -> _ => destruct u end.
  rewrite (Hall eq_refl) in *.
  match goal with
  | Hs : action_status W None _ = _ |- _ =>
      apply action_status_none in Hs as (Hc & Ht & _); cbn in Hc, Ht
  end.
  injection H as <- <-.
  split; [reflexivity|]. split; [exact Hc|].
  eexists _, _, _, _.
  repeat (split; [first [reflexivity | eassumption]|]). exact Ht.
Qed.

(** When the credential is there, the calls made for it are either none
    (the token of the command line) or the four steps of the identity
    exchange; an early return of that block is always 1. *)
Lemma obtain_sso_token_result (args : Args) (s : State) r s1 :
  obtain_sso_token W args s = (r, s1) ->
  match r with
  | Ret (inr tok) =>
      cache s1 = cache s
      /\ exists evs0,
           trace s1 = trace s ++ evs0
           /\ (evs0 = [] \/
               exists macaroon caveat_id discharge,
                 evs0 = identity_calls macaroon caveat_id discharge)
  | Ret (inl code) => code = 1
  | Raise _ => True
  end.
Proof.
  intros H. destruct (truthy (token_value (token args))) eqn:Htok.
  - unfold obtain_sso_token in H. rewrite Htok in H. injection H as <- <-.
    split; [reflexivity|]. exists []. rewrite app_nil_r. split; [reflexivity | now left].
  - apply (obtain_sso_token_exchange W args s r s1 Htok) in H
      as (evs & macaroon & caveat_id & discharge & Ht & _ & Hc & _ & Hr).
    destruct r as [[code|tok]|e]; [exact Hr | | exact I].
    split; [exact Hc|]. exists (EvRootMacaroon :: evs). split; [exact Ht|].
    right. now exists macaroon, caveat_id, discharge.
Qed.

(** The whole of a run of [attach] that starts on a machine that is not
    attached and returns 0. *)
Lemma attach_success_run (args : Args) (s s' : State) :
  attached s = false ->
  action_attach W args s = (Ret (Some 0), s') ->
  uid W = 0
  /\ exists (tok cid ct resp mti contractInfo resources : json)
            (names : list string) (evs0 : list event),
       truthy tok = true
       /\ (evs0 = [] \/
           exists macaroon caveat_id discharge,
             evs0 = identity_calls macaroon caveat_id discharge)
       /\ getitem resp "machineTokenInfo" = Ret mti
       /\ getitem mti "contractInfo" = Ret contractInfo
       /\ getitem contractInfo "resourceEntitlements" = Ret resources
       /\ dict_keys resources = Ret names
       /\ cache s' = <["machine-token" := resp]> (<["bound-macaroon" := tok]> (cache s))
       /\ trace s'
          = trace s ++ evs0
            ++ EvWriteCache "bound-macaroon" tok
               :: exchange_calls tok cid ct resp
               ++ map (EvResourceAccess resp) names.
Proof.
  intros Hatt H.
  destruct (Z.eq_dec (uid W) 0) as [Hroot|Hu].
  2:{ rewrite (action_attach_nonroot W args s Hatt Hu) in H. discriminate. }
  split; [exact Hroot|].
  rewrite (action_attach_unattached_root W args s Hatt Hroot) in H.
  destruct (obtain_sso_token W args s) as [r s1] eqn:Hobt.
  apply obtain_sso_token_result in Hobt.
  destruct r as [[code|tok]|e]; [subst code; discriminate | | discriminate].
  destruct Hobt as (Hc1 & evs0 & Ht1 & Hevs0).
  destruct (truthy tok) eqn:Htrue.
  2:{ unfold attach_with_token in H. rewrite Htrue in H. discriminate. }
  rewrite (attach_with_token_run W tok s1 Htrue) in H.
  destruct (issue_machine_token W tok _) as [r2 s2] eqn:Hissue.
  apply issue_machine_token_spec in Hissue
    as (evs & cid & ct & mt & Ht2 & _ & _ & Hr2).
  destruct r2 as [[code|resp]|e]; [destruct Hr2; subst code; discriminate | | discriminate].
  destruct Hr2 as [Hall Hc2].
  apply attach_entitlements_done in H
    as (_ & Hc3 & mti & contractInfo & resources & names & Hmti & Hci & Hres & Hkeys & Ht3).
  assert (Hmt : machine_token_of s2 = resp).
  { unfold machine_token_of. rewrite Hc2. now rewrite lookup_insert_eq. }
  exists tok, cid, ct, resp, mti, contractInfo, resources, names, evs0.
  repeat (split; [assumption|]). split.
  - rewrite Hc3, Hc2. cbn. now rewrite Hc1.
  - rewrite Ht3, Hmt, Ht2. cbn. rewrite Ht1, Hall.
    rewrite <- !app_assoc. cbn. reflexivity.
Qed.

(** X1: a run of [attach] that starts on a machine that is not attached
    and returns 0 was made by root with a credential that is true, wrote
    that credential under [bound-macaroon] and the machine token under
    [machine-token], and after the four requests of the exchange asked
    access for every key of the [resourceEntitlements] of the machine
    token, in the order of the keys, and for nothing else. *)
Theorem attach_success_complete (args : Args) (s s' : State) :
  attached s = false ->
  action_attach W args s = (Ret (Some 0), s') ->
  uid W = 0
  /\ exists (tok cid ct resp mti contractInfo resources : json)
            (names : list string) (evs0 : list event),
       truthy tok = true
       /\ (evs0 = [] \/
           exists macaroon caveat_id discharge,
             evs0 = identity_calls macaroon caveat_id discharge)
       /\ getitem resp "machineTokenInfo" = Ret mti
       /\ getitem mti "contractInfo" = Ret contractInfo
       /\ getitem contractInfo "resourceEntitlements" = Ret resources
       /\ dict_keys resources = Ret names
       /\ cache s' = <["machine-token" := resp]> (<["bound-macaroon" := tok]> (cache s))
       /\ trace s'
          = trace s ++ evs0
            ++ EvWriteCache "bound-macaroon" tok
               :: exchange_calls tok cid ct resp
               ++ map (EvResourceAccess resp) names.
Proof. exact (attach_success_run args s s'). Qed.

(** X2: whenever [attach] returns 0 the machine is attached afterwards, so
    that any further [attach] makes no call and leaves the cache as it
    is. *)
Theorem attach_success_then_noop (args args' : Args) (s s' : State) :
  action_attach W args s = (Ret (Some 0), s') ->
  attached s' = true
  /\ trace (snd (action_attach W args' s')) = trace s'
  /\ cache (snd (action_attach W args' s')) = cache s'.
Proof.
  intros H.
  assert (Hatt' : attached s' = true).
  { destruct (attached s) eqn:Hatt.
    - pose proof (attach_already_attached_frame W args s Hatt) as [_ Hc].
      rewrite H in Hc. cbn in Hc.
      unfold attached in *. now rewrite Hc.
    - apply attach_success_run in H as (_ & tok & cid & ct & resp & mti & ci & res
        & names & evs0 & _ & _ & _ & _ & _ & _ & Hc & _); [|exact Hatt].
      unfold attached. rewrite Hc. now rewrite lookup_insert_eq. }
  split; [exact Hatt'|].
  exact (attach_already_attached_frame W args' s' Hatt').
Qed.

(** ** Attach: which failures are handled *)

(** X4: when the login of the identity exchange raises a [UrlError], the
    class the first handler names, [attach] returns 1 and logs the url;
    an exception of one of Python's own classes is not caught and leaves
    [attach] as it is.  In both cases nothing is printed, the cache is not
    touched and the credential is never written.  ([SSOAuthError] is left
    aside: its place among the classes is fixed by modules outside
    [cli.py].) *)
Theorem attach_login_failure (args : Args) (s : State)
    (root_macaroon macaroon caveat_id : json) (e : exn) :
  let s1 := add_event EvRootMacaroon s in
  let s2 := add_event (EvExtractCaveat macaroon) s1 in
  let s3 := add_event (EvPromptLogin caveat_id) s2 in
  attached s = false ->
  uid W = 0 ->
  truthy (token_value (token args)) = false ->
  root_macaroon_answer W s = Ret root_macaroon ->
  getitem root_macaroon "macaroon" = Ret macaroon ->
  extract_caveat_answer W macaroon s1 = Ret caveat_id ->
  prompt_macaroon_answer W caveat_id s2 = Raise e ->
  (forall msg, e <> SSOAuthError msg) ->
  action_attach W args s
  = match e with
    | UrlError url _ =>
        (Ret (Some 1),
         add_errlog ("Could not reach url '" ++ url ++ "' to authenticate.")%string s3)
    | _ => (Raise e, s3)
    end.
Proof.
  intros s1 s2 s3 Hatt Hroot Htok Hrm Hm Hcid He _.
  rewrite (action_attach_unattached_root W args s Hatt Hroot).
  unfold obtain_sso_token. rewrite Htok. cbn [negb].
  unfold try_except, bind, request_root_macaroon, extract_macaroon_caveat_id,
    prompt_request_macaroon, call, lift, ret, logging_error.
  rewrite Hrm, Hm. fold s1. rewrite Hcid. fold s2. rewrite He. fold s3.
  now destruct e.
Qed.


(** X6: when the service lists no contract, [contracts['contracts'][0]]
    raises [IndexError], which the handler does not name: [attach] ends
    with it after the accounts and contracts requests, asks for no contract
    token, logs and prints nothing, and leaves the credential it wrote in
    the cache. *)
Theorem attach_empty_contract_list (args : Args) (s : State) (t : string)
    (accts contracts : json) :
  let s1 := snd (write_cache "bound-macaroon" (JStr t) s) in
  let s2 := add_event (EvAccounts (JStr t)) s1 in
  attached s = false ->
  uid W = 0 ->
  token args = Some t ->
  t <> ""%string ->
  accounts_answer W (JStr t) s1 = Ret accts ->
  account_contracts_answer W (JStr t) s2 = Ret contracts ->
  getitem contracts "contracts" = Ret (JList []) ->
  action_attach W args s
  = (Raise IndexError,
     mkState (<["bound-macaroon" := JStr t]> (cache s))
             (trace s ++ [ EvWriteCache "bound-macaroon" (JStr t);
                           EvAccounts (JStr t);
                           EvAccountContracts (JStr t) ])
             (stdout s) (errlog s)).
Proof.
  intros s1 s2 Hatt Hroot Htok Hne Haccts Hcontracts Hempty.
  rewrite (action_attach_unattached_root W args s Hatt Hroot).
  rewrite (obtain_sso_token_supplied W args s t Htok Hne).
  rewrite attach_with_token_run by (cbn; now destruct (String.eqb_spec t "")).
  fold s1.
  unfold issue_machine_token, try_except, bind, request_accounts,
    request_account_contracts, call, lift.
  rewrite Haccts. fold s2. rewrite Hcontracts, Hempty. cbn.
  subst s2 s1. unfold add_event, set_cache. cbn.
  rewrite <- !app_assoc. reflexivity.
Qed.

(** ** Status *)

(** X7: [status] reads only.  It never changes the cache nor the log, and
    the only calls it makes are the two file writes of [--update-motd], the
    file of available updates first, each with the summary computed just
    before it; without the flag, or when [attach] calls it, it makes no
    call at all. *)
Theorem status_read_only (args : option Args) (s : State) :
  cache (snd (action_status W args s)) = cache s
  /\ errlog (snd (action_status W args s)) = errlog s
  /\ trace (snd (action_status W args s))
     = trace s
       ++ (if match args with Some a => update_motd a | None => false end
           then [ EvWriteFile (MOTD_UPDATES_AVAILABLE_CACHE_FILE W)
                    (get_motd_summary W true s);
                  EvWriteFile (MOTD_CACHE_FILE W)
                    (get_motd_summary W false
                       (add_event
                          (EvWriteFile (MOTD_UPDATES_AVAILABLE_CACHE_FILE W)
                             (get_motd_summary W true s)) s)) ]
           else []).
Proof.
  destruct (action_status W args s) as [r s'] eqn:H. cbn [snd].
  unfold action_status, status_update_motd, bind, is_attached, machine_token,
    accounts, lift, ret, print, write_file in H.
  destruct (match args with Some a => update_motd a | None => false end).
  - cbn in H. cases_of H.
    all: injection H as <- <-; cbn; rewrite <- ?app_assoc; repeat split.
  - cbn in H. cases_of H.
    all: injection H as <- <-; cbn; rewrite ?app_nil_r; repeat split.
Qed.

(** X8: [status] prints its summary in one piece, at the very end: after
    the part of [--update-motd], either it returns [None] having printed
    exactly one more text, or it raises having printed nothing more. *)
Theorem status_prints_once (args : option Args) (s : State) :
  let s0 := snd (status_update_motd W
                   (match args with Some a => update_motd a | None => false end) s) in
  ((exists text, action_status W args s = (Ret None, add_stdout text s0))
   \/ (exists e, action_status W args s = (Raise e, s0))).
Proof.
  intros s0.
  destruct (status_update_motd_run W
              (match args with Some a => update_motd a | None => false end) s)
    as [Hmotd Hcache].
  fold s0 in Hmotd, Hcache.
  assert (Hatt : attached s0 = attached s) by (unfold attached; now rewrite Hcache).
  clearbody s0.
  destruct (action_status W args s) as [r s'] eqn:H.
  unfold action_status in H. unfold bind at 1 in H. rewrite Hmotd in H.
  unfold bind, is_attached, machine_token, accounts, lift, ret, print in H.
  rewrite Hatt in H. destruct (attached s); cbn [negb] in H.
  - cases_of H. all: injection H as <- <-; eauto.
  - injection H as <- <-. left. eauto.
Qed.

(** The format asks for a fraction of a second: a text with no point in
    it is not an expiry. *)
Lemma split_at_None (sep : ascii -> bool) (l : list ascii) :
  (forall c, In c l -> sep c = false) -> split_at sep l = None.
Proof.
  induction l as [|c l IH]; intros H; [reflexivity|].
  cbn. rewrite (H c) by now left.
  rewrite IH; [reflexivity|]. intros c' Hc'. apply H. now right.
Qed.

Lemma split_at_rest (sep : ascii -> bool) (l f r : list ascii) :
  split_at sep l = Some (f, r) -> forall c, In c r -> In c l.
Proof.
  revert f r. induction l as [|c l IH]; intros f r H; [discriminate|].
  cbn in H. destruct (sep c).
  - injection H as <- <-. intros c' Hc'. now right.
  - destruct (split_at sep l) as [[f' r']|]; [|discriminate].
    injection H as <- <-. intros c' Hc'. right. now apply (IH f' r').
Qed.

Lemma parse_expiry_needs_point (text : list ascii) :
  (forall c, In c text -> c <> "."%char) -> parse_expiry text = None.
Proof.
  intros Hno. unfold parse_expiry.
  destruct (split_at _ text) as [[fy r1]|] eqn:E1; cbn; [|reflexivity].
  destruct (year_field fy); cbn; [|reflexivity].
  destruct (split_at _ r1) as [[fm r2]|] eqn:E2; cbn; [|reflexivity].
  destruct (short_field 1 12 fm); cbn; [|reflexivity].
  destruct (split_at _ r2) as [[fd r3]|] eqn:E3; cbn; [|reflexivity].
  destruct (day_field fd); cbn; [|reflexivity].
  destruct (split_at _ r3) as [[fH r4]|] eqn:E4; cbn; [|reflexivity].
  destruct (short_field 0 23 fH); cbn; [|reflexivity].
  destruct (split_at _ r4) as [[fM r5]|] eqn:E5; cbn; [|reflexivity].
  destruct (short_field 0 59 fM); cbn; [|reflexivity].
  rewrite split_at_None; [reflexivity|].
  intros c Hc. unfold is_char.
  assert (Hin : In c text).
  { eapply split_at_rest; [exact E1|]. eapply split_at_rest; [exact E2|].
    eapply split_at_rest; [exact E3|]. eapply split_at_rest; [exact E4|].
    eapply split_at_rest; [exact E5|]. exact Hc. }
  apply Hno in Hin. apply Ascii.eqb_neq in Hin. now rewrite Hin.
Qed.

(** X9: on an attached machine whose contract expiry has no fraction of a
    second (no point in the text, as in [2030-01-15T00:00:00Z]), [status]
    raises [ValueError] and prints no summary, with or without
    [--update-motd]: only the part of that flag is done. *)
Theorem status_expiry_needs_fraction (args : option Args) (s : State)
    (mt mti contractInfo : json) (text : string) :
  cache s !! "machine-token" = Some mt ->
  getitem mt "machineTokenInfo" = Ret mti ->
  getitem mti "contractInfo" = Ret contractInfo ->
  getitem contractInfo "effectiveTo" = Ret (JStr text) ->
  (forall c, In c (list_ascii_of_string text) -> c <> "."%char) ->
  action_status W args s
  = (Raise ValueError,
     snd (status_update_motd W
            (match args with Some a => update_motd a | None => false end) s)).
Proof.
  intros Hmt Hmti Hci Heff Hno.
  destruct (status_update_motd_run W
              (match args with Some a => update_motd a | None => false end) s)
    as [Hmotd Hcache].
  remember (snd (status_update_motd W
                   (match args with Some a => update_motd a | None => false end) s))
    as s0 eqn:Es0.
  assert (Hatt : attached s0 = true)
    by (unfold attached; now rewrite Hcache, Hmt).
  assert (Hmt0 : machine_token_of s0 = mt)
    by (unfold machine_token_of; now rewrite Hcache, Hmt).
  unfold action_status. unfold bind at 1. rewrite Hmotd.
  unfold bind, is_attached, machine_token, lift, ret.
  rewrite Hatt. cbn [negb]. rewrite Hmt0, Hmti, Hci, Heff. unfold strptime.
  now rewrite (parse_expiry_needs_point _ Hno).
Qed.

(** ** Detach *)

(** X10: [detach] by root on an attached machine asks every entitlement of
    the registry, in order, whether it can be disabled, without prompt, and
    disables those that answer yes; whatever the answers, it then deletes
    [machine-token] and [oauth], prints that the machine is detached and
    returns 0.  Nothing else changes: the other entries of the cache stay
    and nothing is logged. *)
Theorem detach_by_root (args : Args) (s : State) :
  attached s = true ->
  uid W = 0 ->
  exists evs,
    teardown_calls (ENTITLEMENT_CLASSES W) evs
    /\ action_detach W args s
       = (Ret (Some 0),
          mkState (delete "oauth" (delete "machine-token" (cache s)))
                  (trace s ++ evs
                     ++ [EvDeleteCache "machine-token"; EvDeleteCache "oauth"])
                  (stdout s ++ ["This machine is now detached"%string])
                  (errlog s)).
Proof. exact (detach_root W args s). Qed.


(** ** Exit codes *)

Lemma attach_with_token_result (tok : json) (s : State) :
  exit_status (fst (attach_with_token W tok s)) = 0
  \/ exit_status (fst (attach_with_token W tok s)) = 1.
Proof.
  destruct (attach_with_token W tok s) as [r s'] eqn:H. cbn [fst].
  destruct (truthy tok) eqn:Htrue.
  2:{ unfold attach_with_token in H. rewrite Htrue in H. injection H as <- <-.
      now right. }
  rewrite (attach_with_token_run W tok s Htrue) in H.
  destruct (issue_machine_token W tok _) as [r2 s2] eqn:Hissue.
  apply issue_machine_token_spec in Hissue
    as (evs & cid & ct & mt & _ & _ & _ & Hr2).
  destruct r2 as [[code|resp]|e].
  - injection H as <- <-. destruct Hr2 as [-> _]. now right.
  - destruct r as [v|e]; [|now right].
    apply attach_entitlements_done in H as (-> & _). now left.
  - injection H as <- <-. now right.
Qed.

Lemma action_attach_result (args : Args) (s : State) :
  exit_status (fst (action_attach W args s)) = 0
  \/ exit_status (fst (action_attach W args s)) = 1.
Proof.
  destruct (attached s) eqn:Hatt.
  { unfold action_attach, bind, is_attached, accounts, lift, print, ret.
    rewrite Hatt.
    destruct (cfg_accounts W s) as [accts|]; [|now right].
    destruct (getitem0 accts) as [account|]; [|now right].
    destruct (getitem account "name"); [now left | now right]. }
  destruct (Z.eq_dec (uid W) 0) as [Hroot|Hu].
  2:{ rewrite (action_attach_nonroot W args s Hatt Hu). now right. }
  rewrite (action_attach_unattached_root W args s Hatt Hroot).
  destruct (obtain_sso_token W args s) as [r s1] eqn:Hobt.
  apply obtain_sso_token_result in Hobt.
  destruct r as [[code|tok]|e]; [subst code; now right | | now right].
  apply attach_with_token_result.
Qed.

Lemma action_status_result (args : option Args) (s : State) :
  exit_status (fst (action_status W args s)) = 0
  \/ exit_status (fst (action_status W args s)) = 1.
Proof.
  destruct (action_status W args s) as [r s'] eqn:H. cbn [fst].
  unfold action_status, status_update_motd, bind, is_attached, machine_token,
    accounts, lift, ret, print, write_file in H.
  destruct (match args with Some a => update_motd a | None => false end).
  - cbn in H. cases_of H. all: injection H as <- <-; cbn; auto.
  - cbn in H. cases_of H. all: injection H as <- <-; cbn; auto.
Qed.

(** Whatever the action, the state of the machine and the answers of the
    services, the action returns [None], 0 or 1, or leaves with an
    exception. *)
Lemma action_exit_status (cmd : subcommand) (args : Args) (s : State) :
  exit_status (fst (main W cmd args s)) = 0
  \/ exit_status (fst (main W cmd args s)) = 1.
Proof.
  destruct cmd; cbn [main].
  - apply action_status_result.
  - apply action_attach_result.
  - destruct (attached s) eqn:Hatt.
    + destruct (Z.eq_dec (uid W) 0) as [Hroot|Hu].
      * destruct (detach_root W args s Hatt Hroot) as (evs & _ & Hrun).
        rewrite Hrun. now left.
      * apply Z.eqb_neq in Hu.
        unfold action_detach, bind, is_attached, os_getuid, print, ret.
        rewrite Hatt, Hu. now right.
    + unfold action_detach, bind, is_attached, print, ret.
      rewrite Hatt. now right.
  - unfold action_enable, entitlement_class_by_name, ent_enable, bind,
      os_getuid, print, ret, raise.
    destruct (existsb _ _); [|now right].
    destruct (uid W =? 0); cbn; [|now right].
    destruct (enable_answer W (name args) s); auto.
  - unfold action_disable, entitlement_class_by_name, ent_disable, bind,
      os_getuid, print, ret, raise.
    destruct (existsb _ _); [|now right].
    destruct (uid W =? 0); cbn; [|now right].
    destruct (disable_answer W (name args) false s); auto.
  - now left.
Qed.

End Further.

(** * The logging of [main] *)

Section LoggingProperties.

Context (H : Host).

Lemma is_stderr_configured (level : Z) (h : Handler) :
  is_stderr (setFormatter CONSOLE_FORMAT (setLevel level h)) = is_stderr h.
Proof. reflexivity. Qed.

Lemma configure_stderr_found (level : Z) (hs : list Handler) :
  snd (configure_stderr level hs) = existsb is_stderr hs.
Proof.
  induction hs as [|h hs IH]; [reflexivity|].
  cbn. destruct (is_stderr h); [reflexivity|].
  destruct (configure_stderr level hs). exact IH.
Qed.

Lemma configure_stderr_length (level : Z) (hs : list Handler) :
  length (fst (configure_stderr level hs)) = length hs.
Proof.
  induction hs as [|h hs IH]; [reflexivity|].
  cbn. destruct (is_stderr h); [reflexivity|].
  destruct (configure_stderr level hs). cbn in *. now rewrite IH.
Qed.

(** The loop changes the first handler on [<stderr>] and no other. *)
Lemma configure_stderr_first (level : Z) (before after : list Handler) (h : Handler) :
  existsb is_stderr before = false ->
  is_stderr h = true ->
  configure_stderr level (before ++ h :: after)
  = (before ++ setFormatter CONSOLE_FORMAT (setLevel level h) :: after, true).
Proof.
  intros Hbefore Hh. induction before as [|b before IH]; cbn.
  - now rewrite Hh.
  - cbn in Hbefore. apply orb_false_iff in Hbefore as [Hb Hbefore].
    rewrite Hb, (IH Hbefore). reflexivity.
Qed.

Lemma configure_stderr_none (level : Z) (hs : list Handler) :
  existsb is_stderr hs = false ->
  configure_stderr level hs = (hs, false).
Proof.
  induction hs as [|h hs IH]; intros Hno; [reflexivity|].
  cbn in *. apply orb_false_iff in Hno as [Hh Hno].
  now rewrite Hh, (IH Hno).
Qed.

Lemma existsb_split (hs : list Handler) :
  existsb is_stderr hs = true ->
  exists before h after,
    hs = before ++ h :: after
    /\ existsb is_stderr before = false
    /\ is_stderr h = true.
Proof.
  induction hs as [|h hs IH]; intros Hex; [discriminate|].
  cbn in Hex. destruct (is_stderr h) eqn:Hh.
  - exists [], h, hs. now repeat split.
  - destruct (IH Hex) as (before & h' & after & -> & Hb & Hh').
    exists (h :: before), h', after. repeat split; [|exact Hh'].
    cbn. now rewrite Hh.
Qed.

Lemma setup_logging_has_console (level : option Z) (log_file : option log_target)
    (lg lg' : Logging) :
  setup_logging H level log_file lg = Ret lg' ->
  root_level lg' = default ERROR level
  /\ exists before h after,
       handlers lg' = before ++ h :: after
       /\ existsb is_stderr before = false
       /\ is_stderr h = true
       /\ handler_level h = default ERROR level
       /\ handler_format h = Some CONSOLE_FORMAT.
Proof.
  unfold setup_logging. intros Hrun.
  destruct (FileHandler H _) as [fh|e]; [|discriminate].
  set (added := handlers lg ++ [setFormatter DEFAULT_LOG_FORMAT (setLevel DEBUG fh)]) in *.
  destruct (existsb is_stderr added) eqn:Hex.
  - destruct (existsb_split added Hex) as (before & h & after & Hadded & Hb & Hh).
    rewrite Hadded, (configure_stderr_first _ before after h Hb Hh) in Hrun.
    injection Hrun as <-. split; [reflexivity|].
    exists before, (setFormatter CONSOLE_FORMAT (setLevel (default ERROR level) h)), after.
    now repeat split.
  - rewrite (configure_stderr_none _ added Hex) in Hrun.
    injection Hrun as <-. split; [reflexivity|].
    exists added, (setLevel (default ERROR level)
                     (setFormatter CONSOLE_FORMAT StreamHandler_stderr)), [].
    now repeat split.
Qed.

(** X13: when [setup_logging] returns, the root logger has the level asked
    for ([logging.ERROR] by default) and one of its handlers writes to
    [<stderr>] at that level with the console format. *)
Theorem setup_logging_console (level : option Z) (log_file : option log_target)
    (lg lg' : Logging) :
  setup_logging H level log_file lg = Ret lg' ->
  root_level lg' = default ERROR level
  /\ exists h,
       In h (handlers lg')
       /\ stream_name h = Some "<stderr>"%string
       /\ handler_level h = default ERROR level
       /\ handler_format h = Some CONSOLE_FORMAT.
Proof.
  intros Hrun.
  destruct (setup_logging_has_console level log_file lg lg' Hrun)
    as (Hroot & before & h & after & Hhs & _ & Hstderr & Hlevel & Hfmt).
  split; [exact Hroot|]. exists h. rewrite Hhs.
  split; [apply in_or_app; right; now left|].
  split; [|now split].
  unfold is_stderr in Hstderr. destruct (stream_name h) as [n|]; [|discriminate].
  apply String.eqb_eq in Hstderr. now subst n.
Qed.

(** X14: when the root logger already has a handler on [<stderr>], the
    first such handler is given the level and the console format, no
    console handler is added, and every other handler is left as it is; the
    file handler, at level [logging.DEBUG] with the default log format,
    comes last. *)
Theorem setup_logging_existing_console (level : option Z) (path : string)
    (root : Z) (before after : list Handler) (h : Handler) :
  existsb is_stderr before = false ->
  is_stderr h = true ->
  open_error H path = None ->
  setup_logging H level (Some (LogPath path)) (mkLogging (before ++ h :: after) root)
  = Ret (mkLogging
           (before
              ++ setFormatter CONSOLE_FORMAT (setLevel (default ERROR level) h)
              :: after
              ++ [mkHandler (Some (abspath H path)) DEBUG (Some DEFAULT_LOG_FORMAT)])
           (default ERROR level)).
Proof.
  intros Hbefore Hh Hopen. unfold setup_logging, FileHandler.
  cbn [default from_option id]. rewrite Hopen. cbn [handlers].
  rewrite <- app_assoc. cbn [app].
  rewrite (configure_stderr_first _ before _ h Hbefore Hh). reflexivity.
Qed.

(** X15: when no handler of the root logger is on [<stderr>], two handlers
    are added after those that were there, which stay as they are: the file
    handler at level [logging.DEBUG] with the default log format, then a
    console handler on [<stderr>] at the level asked for. *)
Theorem setup_logging_fresh_console (level : option Z) (path : string)
    (lg : Logging) :
  existsb is_stderr (handlers lg) = false ->
  open_error H path = None ->
  abspath H path <> "<stderr>"%string ->
  setup_logging H level (Some (LogPath path)) lg
  = Ret (mkLogging
           (handlers lg
              ++ [ mkHandler (Some (abspath H path)) DEBUG (Some DEFAULT_LOG_FORMAT);
                   mkHandler (Some "<stderr>"%string) (default ERROR level)
                     (Some CONSOLE_FORMAT) ])
           (default ERROR level)).
Proof.
  intros Hno Hopen Habs. unfold setup_logging, FileHandler.
  cbn [default from_option id]. rewrite Hopen.
  rewrite configure_stderr_none.
  - rewrite <- app_assoc. reflexivity.
  - rewrite existsb_app, Hno. cbn. unfold is_stderr. cbn.
    apply String.eqb_neq in Habs. now rewrite Habs.
Qed.

(** X16: a second [setup_logging] finds the console handler of the first
    and adds no other, but it does add a file handler again: the list of
    handlers grows by exactly one. *)
Theorem setup_logging_twice (level level' : option Z)
    (log_file log_file' : option log_target) (lg lg1 lg2 : Logging) :
  setup_logging H level log_file lg = Ret lg1 ->
  setup_logging H level' log_file' lg1 = Ret lg2 ->
  length (handlers lg2) = S (length (handlers lg1)).
Proof.
  intros Hfirst Hsecond.
  destruct (setup_logging_has_console level log_file lg lg1 Hfirst)
    as (_ & before & h & after & Hhs & Hb & Hh & _).
  unfold setup_logging in Hsecond.
  destruct (FileHandler H _) as [fh|e] eqn:Hfh; [|discriminate].
  rewrite Hhs in Hsecond. rewrite <- app_assoc in Hsecond. cbn [app] in Hsecond.
  rewrite (configure_stderr_first _ before _ h Hb Hh) in Hsecond.
  injection Hsecond as <-. cbn [handlers]. rewrite Hhs.
  rewrite !length_app. cbn. rewrite length_app. cbn. lia.
Qed.

(** X17: with [--debug], [main] hands [logging.DEBUG], a number, to
    [setup_logging] as the log file as well as the level; the file handler
    refuses it, and the command, whichever it is, is never run. *)
Theorem main_debug_never_runs (W : World) (cmd : subcommand) (args : Args)
    (lg : Logging) (s : State) :
  main_entry H W true cmd args lg s = (Raise TypeError, s, lg).
Proof. reflexivity. Qed.

(** X18: without [--debug], a command runs exactly when the log file of the
    configuration can be opened; when it cannot, [main] ends with the error
    of the opening before the action starts, for every subcommand. *)
Theorem main_runs_iff_log_opens (W : World) (cmd : subcommand) (args : Args)
    (lg : Logging) (s : State) :
  fst (main_entry H W false cmd args lg s)
  = match open_error H (cfg_log_file H) with
    | Some e => (Raise e, s)
    | None => main W cmd args s
    end.
Proof.
  unfold main_entry, setup_logging, FileHandler. cbn [default from_option id].
  destruct (open_error H (cfg_log_file H)); [reflexivity|].
  now destruct (configure_stderr _ _) as [configured []].
Qed.

(** X12: once the command line is parsed (for [enable] and [disable] the
    parser only lets through a name of the registry), whatever the state of
    the machine, the log file and the answers of the services, [main]
    returns [None], 0 or 1, or leaves with an exception: the exit code is 0
    or 1. *)
Theorem exit_status_after_parsing (W : World) (debug : bool) (cmd : subcommand)
    (args : Args) (lg : Logging) (s : State) :
  (cmd = CmdEnable \/ cmd = CmdDisable -> In (name args) (ENTITLEMENT_CLASSES W)) ->
  exit_status (fst (fst (main_entry H W debug cmd args lg s))) = 0
  \/ exit_status (fst (fst (main_entry H W debug cmd args lg s))) = 1.
Proof.
  intros _. unfold main_entry.
  destruct (setup_logging H _ _ lg) as [lg'|e]; cbn [fst].
  - apply action_exit_status.
  - now right.
Qed.

End LoggingProperties.

(** ** The hypotheses of the further properties, met on the sample machine *)

Lemma attach_success_complete_witness :
  attached fresh_state = false
  /\ action_attach world_root (token_args "tok123") fresh_state
     = (Ret (Some 0), state_after_attach)
  /\ uid world_root = 0.
Proof.
  assert (Hatt : attached fresh_state = false) by reflexivity.
  assert (Hrun : action_attach world_root (token_args "tok123") fresh_state
                 = (Ret (Some 0), state_after_attach))
    by (vm_compute; reflexivity).
  split; [exact Hatt|]. split; [exact Hrun|].
  exact (proj1 (attach_success_complete world_root (token_args "tok123")
                  fresh_state state_after_attach Hatt Hrun)).
Defined.

Lemma attach_success_then_noop_witness :
  action_attach world_root (token_args "tok123") fresh_state
  = (Ret (Some 0), state_after_attach)
  /\ attached state_after_attach = true
  /\ trace (snd (action_attach world_root no_args state_after_attach))
     = trace state_after_attach.
Proof.
  assert (Hrun : action_attach world_root (token_args "tok123") fresh_state
                 = (Ret (Some 0), state_after_attach))
    by (vm_compute; reflexivity).
  split; [exact Hrun|].
  destruct (attach_success_then_noop world_root (token_args "tok123") no_args
              fresh_state state_after_attach Hrun)
    as (Hatt & Htrace & _).
  split; [exact Hatt | exact Htrace].
Defined.

Lemma attach_login_failure_witness :
  attached fresh_state = false
  /\ uid world_login_unreachable = 0
  /\ truthy (token_value (token no_args)) = false
  /\ (forall msg,
        UrlError "https://login.ubuntu.com/api/v2/tokens/discharge" "timed out"
        <> SSOAuthError msg)
  /\ action_attach world_login_unreachable no_args fresh_state
     = (Ret (Some 1),
        add_errlog
          "Could not reach url 'https://login.ubuntu.com/api/v2/tokens/discharge' to authenticate."
          (add_event (EvPromptLogin (JStr "caveat-1"))
             (add_event (EvExtractCaveat (JStr "root-mac"))
                (add_event EvRootMacaroon fresh_state)))).
Proof.
  assert (Hclass : forall msg,
             UrlError "https://login.ubuntu.com/api/v2/tokens/discharge" "timed out"
             <> SSOAuthError msg) by (intros msg; discriminate).
  split; [reflexivity|]. split; [reflexivity|]. split; [reflexivity|].
  split; [exact Hclass|].
  exact (attach_login_failure world_login_unreachable no_args fresh_state
           (JDict [("macaroon", JStr "root-mac")]) (JStr "root-mac")
           (JStr "caveat-1")
           (UrlError "https://login.ubuntu.com/api/v2/tokens/discharge" "timed out")
           eq_refl eq_refl eq_refl eq_refl eq_refl eq_refl eq_refl Hclass).
Defined.

Lemma attach_empty_contract_list_witness :
  attached fresh_state = false
  /\ uid world_no_contract = 0
  /\ token (token_args "tok123") = Some "tok123"%string
  /\ "tok123"%string <> ""%string
  /\ fst (action_attach world_no_contract (token_args "tok123") fresh_state)
     = Raise IndexError.
Proof.
  assert (Hne : "tok123"%string <> ""%string) by discriminate.
  split; [reflexivity|]. split; [reflexivity|]. split; [reflexivity|].
  split; [exact Hne|].
  rewrite (attach_empty_contract_list world_no_contract (token_args "tok123")
             fresh_state "tok123" (JDict [("accounts", JList [])])
             (JDict [("contracts", JList [])])
             eq_refl eq_refl eq_refl Hne eq_refl eq_refl eq_refl).
  reflexivity.
Defined.

Lemma status_expiry_needs_fraction_witness :
  (forall c, In c (list_ascii_of_string "2030-01-15T00:00:00Z") -> c <> "."%char)
  /\ action_status world_root (Some motd_args) state_no_fraction
     = (Raise ValueError,
        snd (status_update_motd world_root true state_no_fraction))
  /\ action_status world_root (Some no_args) state_no_fraction
     = (Raise ValueError, state_no_fraction).
Proof.
  assert (Hno : forall c, In c (list_ascii_of_string "2030-01-15T00:00:00Z")
                          -> c <> "."%char).
  { intros c Hc. cbn in Hc.
    repeat (destruct Hc as [<-|Hc]; [discriminate|]). contradiction. }
  split; [exact Hno|].
  assert (Hmt : cache state_no_fraction !! "machine-token"
                = Some (JDict [("machineTokenInfo",
                                JDict [("contractInfo",
                                        JDict [ ("name", JStr "blackberry/desktop");
                                                ("effectiveTo",
                                                 JStr "2030-01-15T00:00:00Z") ])])]))
    by (vm_compute; reflexivity).
  split.
  - exact (status_expiry_needs_fraction world_root (Some motd_args) state_no_fraction
             _ _ _ "2030-01-15T00:00:00Z" Hmt eq_refl eq_refl eq_refl Hno).
  - exact (status_expiry_needs_fraction world_root (Some no_args) state_no_fraction
             _ _ _ "2030-01-15T00:00:00Z" Hmt eq_refl eq_refl eq_refl Hno).
Defined.

Lemma detach_by_root_witness :
  attached attached_state = true
  /\ uid world_root = 0
  /\ exists evs,
       teardown_calls (ENTITLEMENT_CLASSES world_root) evs
       /\ fst (action_detach world_root no_args attached_state) = Ret (Some 0).
Proof.
  assert (Hatt : attached attached_state = true) by (vm_compute; reflexivity).
  assert (Hroot : uid world_root = 0) by reflexivity.
  split; [exact Hatt|]. split; [exact Hroot|].
  destruct (detach_by_root world_root no_args attached_state Hatt Hroot)
    as (evs & Hevs & Hrun).
  exists evs. split; [exact Hevs | now rewrite Hrun].
Defined.


Lemma setup_logging_console_witness :
  setup_logging sample_host (Some 20) None fresh_logging
  = Ret (mkLogging
           [ mkHandler (Some "/var/log/ubuntu-advantage.log"%string) DEBUG
               (Some DEFAULT_LOG_FORMAT);
             mkHandler (Some "<stderr>"%string) 20 (Some CONSOLE_FORMAT) ] 20)
  /\ exists h,
       In h [ mkHandler (Some "/var/log/ubuntu-advantage.log"%string) DEBUG
                (Some DEFAULT_LOG_FORMAT);
              mkHandler (Some "<stderr>"%string) 20 (Some CONSOLE_FORMAT) ]
       /\ stream_name h = Some "<stderr>"%string
       /\ handler_level h = 20.
Proof.
  split; [reflexivity|].
  destruct (setup_logging_console sample_host (Some 20) None fresh_logging _ eq_refl)
    as (_ & h & Hin & Hname & Hlevel & _).
  exists h. split; [exact Hin|]. split; [exact Hname | exact Hlevel].
Defined.

Lemma setup_logging_existing_console_witness :
  existsb is_stderr [mkHandler None 0 None] = false
  /\ is_stderr (mkHandler (Some "<stderr>"%string) 30 None) = true
  /\ open_error sample_host "/tmp/ua.log" = None
  /\ setup_logging sample_host None (Some (LogPath "/tmp/ua.log")) console_logging
     = Ret (mkLogging
              [ mkHandler None 0 None;
                mkHandler (Some "<stderr>"%string) ERROR (Some CONSOLE_FORMAT);
                mkHandler (Some "/tmp/ua.log"%string) DEBUG (Some DEFAULT_LOG_FORMAT) ]
              ERROR).
Proof.
  split; [reflexivity|]. split; [reflexivity|]. split; [reflexivity|].
  exact (setup_logging_existing_console sample_host None "/tmp/ua.log" 30
           [mkHandler None 0 None] [] (mkHandler (Some "<stderr>"%string) 30 None)
           eq_refl eq_refl eq_refl).
Defined.

Lemma setup_logging_fresh_console_witness :
  existsb is_stderr (handlers fresh_logging) = false
  /\ open_error sample_host "/tmp/ua.log" = None
  /\ abspath sample_host "/tmp/ua.log" <> "<stderr>"%string
  /\ setup_logging sample_host (Some 20) (Some (LogPath "/tmp/ua.log")) fresh_logging
     = Ret (mkLogging
              [ mkHandler (Some "/tmp/ua.log"%string) DEBUG (Some DEFAULT_LOG_FORMAT);
                mkHandler (Some "<stderr>"%string) 20 (Some CONSOLE_FORMAT) ] 20).
Proof.
  assert (Habs : abspath sample_host "/tmp/ua.log" <> "<stderr>"%string)
    by (cbn; discriminate).
  split; [reflexivity|]. split; [reflexivity|]. split; [exact Habs|].
  exact (setup_logging_fresh_console sample_host (Some 20) "/tmp/ua.log"
           fresh_logging eq_refl eq_refl Habs).
Defined.

Lemma setup_logging_twice_witness :
  setup_logging sample_host None None console_logging
  = Ret (mkLogging
           [ mkHandler None 0 None;
             mkHandler (Some "<stderr>"%string) ERROR (Some CONSOLE_FORMAT);
             mkHandler (Some "/var/log/ubuntu-advantage.log"%string) DEBUG
               (Some DEFAULT_LOG_FORMAT) ] ERROR)
  /\ exists lg2,
       setup_logging sample_host None None
         (mkLogging
            [ mkHandler None 0 None;
              mkHandler (Some "<stderr>"%string) ERROR (Some CONSOLE_FORMAT);
              mkHandler (Some "/var/log/ubuntu-advantage.log"%string) DEBUG
                (Some DEFAULT_LOG_FORMAT) ] ERROR)
       = Ret lg2
       /\ length (handlers lg2) = 4%nat.
Proof.
  split; [reflexivity|].
  eexists. split; [reflexivity|].
  exact (setup_logging_twice sample_host None None None None console_logging
           _ _ eq_refl eq_refl).
Defined.

(** * The guard of [attach] and its two paths, in full *)

Section AttachPaths.

Context (W : World).

(** C4, as the code has it: on a machine that is already attached,
    [attach] makes no call at all, so no network request, and leaves the
    cache as it was, whatever the configuration.  It prints the name of the
    account, [cfg.accounts[0]['name']], and returns 0 when that name can be
    read; when it cannot, [attach] ends with the exception of the lookup,
    having printed nothing. *)
Theorem attach_already_attached_outcome (args : Args) (s : State) :
  attached s = true ->
  action_attach W args s
  = match account_name_of W s with
    | Ret account_name =>
        (Ret (Some 0),
         add_stdout ("This machine is already attached to '"
                     ++ py_str W account_name ++ "'.")%string s)
    | Raise e => (Raise e, s)
    end
  /\ trace (snd (action_attach W args s)) = trace s
  /\ cache (snd (action_attach W args s)) = cache s.
Proof.
  intros Hatt.
  split; [|exact (attach_already_attached_frame W args s Hatt)].
  unfold action_attach, account_name_of, bind, is_attached, accounts, lift,
    print, ret.
  rewrite Hatt.
  destruct (cfg_accounts W s) as [accts|]; [|reflexivity].
  destruct (getitem0 accts) as [account|]; [|reflexivity].
  now destruct (getitem account "name").
Qed.

(** Case analysis on what is left of a run, innermost answer first; every
    case then shows the calls it made. *)
Ltac remaining_cases :=
  repeat match goal with
         | |- context [match ?x with _ => _ end] =>
             lazymatch x with
             | context [match _ with _ => _ end] => fail
             | _ => destruct x
             end
         end;
  cbn; rewrite <- ?app_assoc; cbn; eexists; reflexivity.

(** The exchange, request by request: each request is made as soon as the
    one before it was answered, with the credential and with what the
    answers before it hold, and the machine token that comes out is
    written to the cache. *)
Lemma issue_machine_token_steps (tok : json) (s : State) :
  forall accts, accounts_answer W tok s = Ret accts ->
  (exists rest,
     trace (snd (issue_machine_token W tok s))
     = trace s ++ [EvAccounts tok; EvAccountContracts tok] ++ rest)
  /\ forall contracts contract_list contract contract_info contract_id,
       account_contracts_answer W tok (add_event (EvAccounts tok) s) = Ret contracts ->
       getitem contracts "contracts" = Ret contract_list ->
       getitem0 contract_list = Ret contract ->
       getitem contract "contractInfo" = Ret contract_info ->
       getitem contract_info "id" = Ret contract_id ->
       (exists rest,
          trace (snd (issue_machine_token W tok s))
          = trace s ++ [ EvAccounts tok; EvAccountContracts tok;
                         EvAddContractToken tok contract_id ] ++ rest)
       /\ forall answer contract_token,
            add_contract_token_answer W tok contract_id
              (add_event (EvAccountContracts tok) (add_event (EvAccounts tok) s))
            = Ret answer ->
            getitem answer "contractToken" = Ret contract_token ->
            (exists rest,
               trace (snd (issue_machine_token W tok s))
               = trace s ++ [ EvAccounts tok; EvAccountContracts tok;
                              EvAddContractToken tok contract_id;
                              EvMachineAttach contract_token ] ++ rest)
            /\ forall resp,
                 machine_attach_answer W contract_token
                   (add_event (EvAddContractToken tok contract_id)
                      (add_event (EvAccountContracts tok)
                         (add_event (EvAccounts tok) s)))
                 = Ret resp ->
                 issue_machine_token W tok s
                 = (Ret (inr resp),
                    mkState (<["machine-token" := resp]> (cache s))
                            (trace s ++ exchange_calls tok contract_id contract_token resp)
                            (stdout s) (errlog s)).
Proof.
  intros accts Haccts.
  unfold issue_machine_token, try_except, bind, request_accounts,
    request_account_contracts, request_add_contract_token,
    request_contract_machine_attach, bind, call, lift, ret, write_cache,
    logging_error.
  rewrite Haccts. split; [remaining_cases|].
  intros contracts contract_list contract contract_info contract_id
    Hcontracts Hlist Hfirst Hinfo Hid.
  rewrite Hcontracts, Hlist, Hfirst, Hinfo, Hid. split; [remaining_cases|].
  intros answer contract_token Hanswer Htoken.
  rewrite Hanswer, Htoken. split; [remaining_cases|].
  intros resp Hresp. rewrite Hresp.
  unfold exchange_calls, add_event, set_cache. cbn.
  rewrite <- ?app_assoc. reflexivity.
Qed.

(** What follows the exchange only adds calls. *)
Lemma attach_with_token_extends (tok : json) (s : State) :
  truthy tok = true ->
  exists more,
    trace (snd (attach_with_token W tok s))
    = trace (snd (issue_machine_token W tok (snd (write_cache "bound-macaroon" tok s))))
      ++ more.
Proof.
  intros Htrue. rewrite (attach_with_token_run W tok s Htrue).
  destruct (issue_machine_token W tok _) as [[[code|resp]|e] s2]; cbn [snd].
  - exists []. now rewrite app_nil_r.
  - destruct (attach_entitlements W resp s2) as [r s3] eqn:Hrun.
    apply attach_entitlements_spec in Hrun as (requested & Ht & _).
    eexists. exact Ht.
  - exists []. now rewrite app_nil_r.
Qed.

Lemma truthy_token (t : string) : t <> ""%string -> truthy (JStr t) = true.
Proof. intros Hne. cbn. now destruct (String.eqb_spec t ""). Qed.

(** C6: when [attach] is given a token, a non-empty string, none of the
    steps of the identity exchange is made, whatever the state of the
    machine.  On a machine that is not attached and for root, the token is
    written under [bound-macaroon] and the accounts request is made with
    it; each request that follows is made as soon as the one before it was
    answered: the contracts request with the token, the contract-token
    request with the token and the id of the first contract, the
    machine-token request with the contract token obtained for it.  Once
    the machine token is there, it is in the cache and [attach] goes on to
    the access requests. *)
Theorem attach_explicit_token_requests (args : Args) (s : State) (t : string) :
  token args = Some t ->
  t <> ""%string ->
  (exists (evs : list event) (cid ct mt : json) (requested : list string),
     trace (snd (action_attach W args s)) = trace s ++ evs
     /\ evs `prefix_of`
          (EvWriteCache "bound-macaroon" (JStr t)
             :: exchange_calls (JStr t) cid ct mt
             ++ map (EvResourceAccess mt) requested)
     /\ Forall (fun ev => is_identity_exchange ev = false) evs)
  /\ (attached s = false ->
      uid W = 0 ->
      let tok := JStr t in
      let s0 := snd (write_cache "bound-macaroon" tok s) in
      let s1 := add_event (EvAccounts tok) s0 in
      let s2 := add_event (EvAccountContracts tok) s1 in
      (exists rest,
         trace (snd (action_attach W args s))
         = trace s ++ [EvWriteCache "bound-macaroon" tok; EvAccounts tok] ++ rest)
      /\ forall accts, accounts_answer W tok s0 = Ret accts ->
         (exists rest,
            trace (snd (action_attach W args s))
            = trace s ++ [ EvWriteCache "bound-macaroon" tok; EvAccounts tok;
                           EvAccountContracts tok ] ++ rest)
         /\ forall contracts contract_list contract contract_info contract_id,
              account_contracts_answer W tok s1 = Ret contracts ->
              getitem contracts "contracts" = Ret contract_list ->
              getitem0 contract_list = Ret contract ->
              getitem contract "contractInfo" = Ret contract_info ->
              getitem contract_info "id" = Ret contract_id ->
              (exists rest,
                 trace (snd (action_attach W args s))
                 = trace s ++ [ EvWriteCache "bound-macaroon" tok; EvAccounts tok;
                                EvAccountContracts tok;
                                EvAddContractToken tok contract_id ] ++ rest)
              /\ forall answer contract_token,
                   add_contract_token_answer W tok contract_id s2 = Ret answer ->
                   getitem answer "contractToken" = Ret contract_token ->
                   (exists rest,
                      trace (snd (action_attach W args s))
                      = trace s ++ [ EvWriteCache "bound-macaroon" tok;
                                     EvAccounts tok; EvAccountContracts tok;
                                     EvAddContractToken tok contract_id;
                                     EvMachineAttach contract_token ] ++ rest)
                   /\ forall resp,
                        machine_attach_answer W contract_token
                          (add_event (EvAddContractToken tok contract_id) s2)
                        = Ret resp ->
                        action_attach W args s
                        = attach_entitlements W resp
                            (mkState
                               (<["machine-token" := resp]>
                                  (<["bound-macaroon" := tok]> (cache s)))
                               (trace s
                                  ++ EvWriteCache "bound-macaroon" tok
                                  :: exchange_calls tok contract_id contract_token resp)
                               (stdout s) (errlog s))).
Proof.
  intros Htok Hne. split.
  { destruct (attach_explicit_token W args s t Htok Hne)
      as (evs & cid & ct & mt & requested & Ht & Hpre & Hid & _).
    now exists evs, cid, ct, mt, requested. }
  intros Hatt Hroot tok s0 s1 s2.
  pose proof (truthy_token t Hne) as Htrue. fold tok in Htrue.
  assert (Hrun : action_attach W args s = attach_with_token W tok s).
  { rewrite (action_attach_unattached_root W args s Hatt Hroot).
    now rewrite (obtain_sso_token_supplied W args s t Htok Hne). }
  rewrite Hrun.
  destruct (attach_with_token_extends tok s Htrue) as (more & Hmore).
  fold s0 in Hmore.
  assert (Ht0 : trace s0 = trace s ++ [EvWriteCache "bound-macaroon" tok])
    by reflexivity.
  split.
  { destruct (issue_machine_token W tok s0) as [r s'] eqn:Hissue.
    apply issue_machine_token_spec in Hissue as (evs & _ & _ & _ & Ht & _).
    cbn [snd] in Hmore. rewrite Hmore, Ht, Ht0.
    rewrite <- !app_assoc. cbn. eexists. reflexivity. }
  intros accts Haccts.
  destruct (issue_machine_token_steps tok s0 accts Haccts) as [[rest Hrest] Hnext].
  split.
  { rewrite Hmore, Hrest, Ht0. rewrite <- !app_assoc. cbn. eexists. reflexivity. }
  intros contracts contract_list contract contract_info contract_id
    Hcontracts Hlist Hfirst Hinfo Hid.
  destruct (Hnext _ _ _ _ _ Hcontracts Hlist Hfirst Hinfo Hid)
    as [[rest2 Hrest2] Hnext2].
  split.
  { rewrite Hmore, Hrest2, Ht0. rewrite <- !app_assoc. cbn. eexists. reflexivity. }
  intros answer contract_token Hanswer Htoken.
  destruct (Hnext2 _ _ Hanswer Htoken) as [[rest3 Hrest3] Hnext3].
  split.
  { rewrite Hmore, Hrest3, Ht0. rewrite <- !app_assoc. cbn. eexists. reflexivity. }
  intros resp Hresp.
  rewrite (attach_with_token_run W tok s Htrue). fold s0.
  rewrite (Hnext3 resp Hresp). cbn [cache trace stdout errlog s0 snd write_cache].
  unfold s0, write_cache, add_event, set_cache. cbn.
  rewrite <- !app_assoc. reflexivity.
Qed.

(** The identity exchange, step by step: each step is made as soon as the
    one before it was answered, with what that answer holds, and the
    credential is what the binding returns. *)
Lemma obtain_sso_token_steps (args : Args) (s : State) :
  truthy (token_value (token args)) = false ->
  forall root_macaroon macaroon,
    root_macaroon_answer W s = Ret root_macaroon ->
    getitem root_macaroon "macaroon" = Ret macaroon ->
    (exists rest,
       trace (snd (obtain_sso_token W args s))
       = trace s ++ [EvRootMacaroon; EvExtractCaveat macaroon] ++ rest)
    /\ forall caveat_id,
         extract_caveat_answer W macaroon (add_event EvRootMacaroon s) = Ret caveat_id ->
         (exists rest,
            trace (snd (obtain_sso_token W args s))
            = trace s ++ [ EvRootMacaroon; EvExtractCaveat macaroon;
                           EvPromptLogin caveat_id ] ++ rest)
         /\ forall user_token discharge,
              prompt_macaroon_answer W caveat_id
                (add_event (EvExtractCaveat macaroon) (add_event EvRootMacaroon s))
              = Ret user_token ->
              getitem user_token "discharge_macaroon" = Ret discharge ->
              (exists rest,
                 trace (snd (obtain_sso_token W args s))
                 = trace s ++ identity_calls macaroon caveat_id discharge ++ rest)
              /\ forall sso_token,
                   bind_discharge_answer W discharge macaroon
                     (add_event (EvPromptLogin caveat_id)
                        (add_event (EvExtractCaveat macaroon)
                           (add_event EvRootMacaroon s)))
                   = Ret sso_token ->
                   obtain_sso_token W args s
                   = (Ret (inr sso_token),
                      with_calls (identity_calls macaroon caveat_id discharge) s).
Proof.
  intros Hfalse root_macaroon macaroon Hroot Hmac.
  unfold obtain_sso_token. rewrite Hfalse. cbn [negb].
  unfold try_except, bind, request_root_macaroon, extract_macaroon_caveat_id,
    prompt_request_macaroon, bind_discharge_macarooon_to_root_macaroon, call,
    lift, ret, logging_error.
  rewrite Hroot, Hmac. split; [remaining_cases|].
  intros caveat_id Hcaveat. rewrite Hcaveat. split; [remaining_cases|].
  intros user_token discharge Huser Hdischarge.
  rewrite Huser, Hdischarge, Hmac. unfold identity_calls.
  split; [remaining_cases|].
  intros sso_token Hbind. rewrite Hbind.
  unfold with_calls, add_event. cbn. rewrite <- ?app_assoc. reflexivity.
Qed.

(** Whatever the credential, what [attach] does with it only adds calls. *)
Lemma attach_with_token_grows (tok : json) (s : State) :
  exists more, trace (snd (attach_with_token W tok s)) = trace s ++ more.
Proof.
  destruct (truthy tok) eqn:Htrue.
  - destruct (attach_with_token W tok s) as [r s'] eqn:Hrun.
    apply attach_with_token_spec in Hrun
      as (evs & _ & _ & _ & _ & Ht & _); [|exact Htrue].
    eexists. exact Ht.
  - unfold attach_with_token. rewrite Htrue. exists []. cbn. now rewrite app_nil_r.
Qed.

Lemma action_attach_grows (args : Args) (s : State) :
  attached s = false ->
  uid W = 0 ->
  exists more,
    trace (snd (action_attach W args s))
    = trace (snd (obtain_sso_token W args s)) ++ more.
Proof.
  intros Hatt Hroot.
  rewrite (action_attach_unattached_root W args s Hatt Hroot).
  destruct (obtain_sso_token W args s) as [[[code|tok]|e] s1]; cbn [snd].
  - exists []. now rewrite app_nil_r.
  - apply attach_with_token_grows.
  - exists []. now rewrite app_nil_r.
Qed.

(** C10: on a machine that is not attached and for root, [attach] takes
    the token it is given as the credential exactly when that token is a
    non-empty string: then its first call is the write of the token under
    [bound-macaroon], and no step of the identity exchange is made.  With
    no token, or with the empty string, which behaves as no token at all,
    the run starts with the request for the root macaroon and goes through
    the whole identity exchange, each step made as soon as the one before
    it was answered: the caveat of the root macaroon, the login for that
    caveat, the binding of the discharge to the root macaroon, whose result
    is the credential [attach] goes on with.  When the credential that
    comes out is false, [attach] prints its failure message and returns 1,
    and up to then nothing was written to the cache. *)
Theorem attach_token_path_exchange (args : Args) (s : State) :
  attached s = false ->
  uid W = 0 ->
  ((forall t, token args = Some t -> t <> ""%string ->
      exists evs,
        trace (snd (action_attach W args s))
        = trace s ++ EvWriteCache "bound-macaroon" (JStr t) :: evs
        /\ Forall (fun ev => is_identity_exchange ev = false) evs)
   /\ (token args = None \/ token args = Some ""%string ->
       action_attach W args s = action_attach W (with_token None args) s
       /\ exists (evs1 evs2 : list event) (macaroon caveat_id discharge : json),
            trace (snd (action_attach W args s))
            = trace s ++ (EvRootMacaroon :: evs1) ++ evs2
            /\ (EvRootMacaroon :: evs1)
                 `prefix_of` identity_calls macaroon caveat_id discharge
            /\ (evs2 <> [] ->
                EvRootMacaroon :: evs1 = identity_calls macaroon caveat_id discharge))
   /\ (forall v s1,
         obtain_sso_token W args s = (Ret (inr v), s1) ->
         truthy v = false ->
         action_attach W args s = (Ret (Some 1), add_stdout MESSAGE_NO_USER_TOKEN s1)
         /\ cache s1 = cache s
         /\ exists evs, trace s1 = trace s ++ evs
                        /\ Forall (fun ev => is_cache_mutation ev = false) evs))
  /\ (token args = None \/ token args = Some ""%string ->
      forall root_macaroon macaroon,
        root_macaroon_answer W s = Ret root_macaroon ->
        getitem root_macaroon "macaroon" = Ret macaroon ->
        (exists rest,
           trace (snd (action_attach W args s))
           = trace s ++ [EvRootMacaroon; EvExtractCaveat macaroon] ++ rest)
        /\ forall caveat_id,
             extract_caveat_answer W macaroon (add_event EvRootMacaroon s)
             = Ret caveat_id ->
             (exists rest,
                trace (snd (action_attach W args s))
                = trace s ++ [ EvRootMacaroon; EvExtractCaveat macaroon;
                               EvPromptLogin caveat_id ] ++ rest)
             /\ forall user_token discharge,
                  prompt_macaroon_answer W caveat_id
                    (add_event (EvExtractCaveat macaroon)
                       (add_event EvRootMacaroon s))
                  = Ret user_token ->
                  getitem user_token "discharge_macaroon" = Ret discharge ->
                  (exists rest,
                     trace (snd (action_attach W args s))
                     = trace s ++ identity_calls macaroon caveat_id discharge ++ rest)
                  /\ forall sso_token,
                       bind_discharge_answer W discharge macaroon
                         (add_event (EvPromptLogin caveat_id)
                            (add_event (EvExtractCaveat macaroon)
                               (add_event EvRootMacaroon s)))
                       = Ret sso_token ->
                       action_attach W args s
                       = attach_with_token W sso_token
                           (with_calls (identity_calls macaroon caveat_id discharge) s)).
Proof.
  intros Hatt Hroot. split; [exact (attach_token_path W args s Hatt Hroot)|].
  intros Hnone.
  assert (Hfalse : truthy (token_value (token args)) = false)
    by (destruct Hnone as [-> | ->]; reflexivity).
  destruct (action_attach_grows args s Hatt Hroot) as (more & Hmore).
  intros root_macaroon macaroon Hrm Hmac.
  destruct (obtain_sso_token_steps args s Hfalse _ _ Hrm Hmac) as [[rest Hrest] Hnext].
  split.
  { rewrite Hmore, Hrest. rewrite <- !app_assoc. cbn. eexists. reflexivity. }
  intros caveat_id Hcaveat.
  destruct (Hnext _ Hcaveat) as [[rest2 Hrest2] Hnext2].
  split.
  { rewrite Hmore, Hrest2. rewrite <- !app_assoc. cbn. eexists. reflexivity. }
  intros user_token discharge Huser Hdischarge.
  destruct (Hnext2 _ _ Huser Hdischarge) as [[rest3 Hrest3] Hnext3].
  split.
  { rewrite Hmore, Hrest3. rewrite <- !app_assoc. cbn. eexists. reflexivity. }
  intros sso_token Hbind.
  rewrite (action_attach_unattached_root W args s Hatt Hroot).
  now rewrite (Hnext3 _ Hbind).
Qed.

End AttachPaths.

(** C4 fails on the code: on an attached machine whose configuration lists
    no account, [attach] raises [IndexError] at [cfg.accounts[0]] instead
    of returning 0, and the process ends with status 1.  It still makes no
    call and prints nothing. *)
Lemma attach_no_account_counterexample :
  attached attached_state = true
  /\ fst (action_attach world_no_account no_args attached_state) = Raise IndexError
  /\ exit_status (fst (action_attach world_no_account no_args attached_state)) = 1
  /\ trace (snd (action_attach world_no_account no_args attached_state))
     = trace attached_state
  /\ stdout (snd (action_attach world_no_account no_args attached_state)) = [].
Proof. vm_compute. repeat split. Qed.

Lemma attach_already_attached_outcome_witness :
  attached attached_state = true
  /\ action_attach world_user no_args attached_state
     = (Ret (Some 0),
        add_stdout "This machine is already attached to 'blackberry'." attached_state)
  /\ action_attach world_no_account no_args attached_state
     = (Raise IndexError, attached_state).
Proof.
  assert (Hatt : attached attached_state = true) by (vm_compute; reflexivity).
  split; [exact Hatt|]. split.
  - exact (proj1 (attach_already_attached_outcome world_user no_args
                    attached_state Hatt)).
  - exact (proj1 (attach_already_attached_outcome world_no_account no_args
                    attached_state Hatt)).
Defined.


Lemma attach_explicit_token_requests_witness :
  token (token_args "tok123") = Some "tok123"%string
  /\ "tok123"%string <> ""%string
  /\ attached fresh_state = false
  /\ uid world_root = 0
  /\ accounts_answer world_root (JStr "tok123") state_bound
     = Ret (JDict [("accounts", JList [])])
  /\ add_contract_token_answer world_root (JStr "tok123") (JStr "cid-1")
       (add_event (EvAccountContracts (JStr "tok123"))
          (add_event (EvAccounts (JStr "tok123")) state_bound))
     = Ret (JDict [("contractToken", JStr "ctok-1")])
  /\ action_attach world_root (token_args "tok123") fresh_state
     = attach_entitlements world_root sample_machine_token
         (mkState
            (<["machine-token" := sample_machine_token]>
               (<["bound-macaroon" := JStr "tok123"]> (cache fresh_state)))
            (trace fresh_state
               ++ EvWriteCache "bound-macaroon" (JStr "tok123")
               :: exchange_calls (JStr "tok123") (JStr "cid-1") (JStr "ctok-1")
                    sample_machine_token)
            (stdout fresh_state) (errlog fresh_state)).
Proof.
  assert (Hne : "tok123"%string <> ""%string) by discriminate.
  split; [reflexivity|]. split; [exact Hne|]. split; [reflexivity|].
  split; [reflexivity|]. split; [reflexivity|]. split; [reflexivity|].
  destruct (attach_explicit_token_requests world_root (token_args "tok123")
              fresh_state "tok123" eq_refl Hne)
    as (_ & Hsteps).
  destruct (Hsteps eq_refl eq_refl) as (_ & Haccounts).
  destruct (Haccounts (JDict [("accounts", JList [])]) eq_refl) as (_ & Hcontracts).
  destruct (Hcontracts
              (JDict [("contracts", JList [JDict [("contractInfo", sample_contract_info)]])])
              (JList [JDict [("contractInfo", sample_contract_info)]])
              (JDict [("contractInfo", sample_contract_info)])
              sample_contract_info (JStr "cid-1")
              eq_refl eq_refl eq_refl eq_refl eq_refl)
    as (_ & Htoken).
  destruct (Htoken (JDict [("contractToken", JStr "ctok-1")]) (JStr "ctok-1")
              eq_refl eq_refl)
    as (_ & Hmachine).
  exact (Hmachine sample_machine_token eq_refl).
Defined.

Lemma attach_token_path_exchange_witness :
  attached fresh_state = false
  /\ uid world_root = 0
  /\ token no_args = None
  /\ root_macaroon_answer world_root fresh_state
     = Ret (JDict [("macaroon", JStr "root-mac")])
  /\ action_attach world_root no_args fresh_state
     = attach_with_token world_root (JStr "bound-mac")
         (with_calls
            (identity_calls (JStr "root-mac") (JStr "caveat-1") (JStr "discharge-mac"))
            fresh_state).
Proof.
  split; [reflexivity|]. split; [reflexivity|]. split; [reflexivity|].
  split; [reflexivity|].
  destruct (attach_token_path_exchange world_root no_args fresh_state eq_refl eq_refl)
    as (_ & Hsteps).
  destruct (Hsteps (or_introl eq_refl) (JDict [("macaroon", JStr "root-mac")])
              (JStr "root-mac") eq_refl eq_refl)
    as (_ & Hcaveat).
  destruct (Hcaveat (JStr "caveat-1") eq_refl) as (_ & Hlogin).
  destruct (Hlogin (JDict [("discharge_macaroon", JStr "discharge-mac")])
              (JStr "discharge-mac") eq_refl eq_refl)
    as (_ & Hbind).
  exact (Hbind (JStr "bound-mac") eq_refl).
Defined.

Lemma exit_status_after_parsing_witness :
  (CmdEnable = CmdEnable \/ CmdEnable = CmdDisable ->
   In (name (name_args "esm")) (ENTITLEMENT_CLASSES world_root))
  /\ exit_status
       (fst (fst (main_entry sample_host world_root false CmdEnable (name_args "esm")
                    fresh_logging attached_state)))
     = 0.
Proof.
  assert (Hname : CmdEnable = CmdEnable \/ CmdEnable = CmdDisable ->
                  In (name (name_args "esm")) (ENTITLEMENT_CLASSES world_root))
    by (intros _; left; reflexivity).
  split; [exact Hname|].
  destruct (exit_status_after_parsing sample_host world_root false CmdEnable
              (name_args "esm") fresh_logging attached_state Hname)
    as [Hzero|Hone]; [exact Hzero|].
  vm_compute in Hone. discriminate.
Defined.

